(** * Task controllers and the assignment e-mail helper

    A shallow embedding of [src/emails/utils/task-notify.ts]: the
    [notifyUser] helper and the five task controllers
    ([createTaskController], [updateTaskController],
    [getAllTasksController], [getTaskByIdController],
    [deleteTaskController]).

    The controllers are orchestration code: each one parses the request,
    resolves and checks the caller's role, calls a service and shapes a
    JSON response.  The services, the validation schemas, the user model
    and the e-mail provider live outside the file; they are taken as one
    record of collaborators, and every theorem is stated for an arbitrary
    such record.  Effects are explicit: a computation threads the state of
    the outside world and appends every call it makes to a trace, and it
    either returns a value or throws. *)

From Stdlib Require Import String Ascii List ZArith Bool Lia.
Import ListNotations.
Open Scope string_scope.
Open Scope Z_scope.

(** ** JavaScript primitives used by the controllers *)

Module Js.

(** A JavaScript Number as the controllers produce it: the result of
    [parseInt], or a numeric literal.  Such a Number is NaN, an infinity,
    or a double whose value is an integer; [Int z] is the double of value
    [z], for [z] one of the integers a double can hold (the sign of a
    zero is not kept: both zeros are falsy). *)
Inductive Number : Type :=
| NaN
| Int (z : Z)
| Infinity (negative : bool).

Definition Number_truthy (n : Number) : bool :=
  match n with
  | NaN => false
  | Int z => negb (z =? 0)
  | Infinity _ => true
  end.

(** The Number value for an integer: the nearest double, a tie going to
    the even mantissa, and an infinity once rounding leaves the range of
    the doubles.  Below 2^53 in magnitude every integer is a double; from
    there on a double keeps the 53 leading bits. *)
Definition F (x : Z) : Number :=
  let a := Z.abs x in
  if a <? 2 ^ 53 then Int x
  else
    let e := Z.log2 a - 52 in
    let q := Z.shiftr a e in
    let r := a - Z.shiftl q e in
    let half := 2 ^ (e - 1) in
    let q' := if (half <? r) || ((r =? half) && Z.odd q) then q + 1 else q in
    let m := Z.shiftl q' e in
    if 2 ^ 1024 <=? m then Infinity (x <? 0) else Int (Z.sgn x * m).

(** [a || b] at type Number. *)
Definition or (a b : Number) : Number :=
  if Number_truthy a then a else b.

(** A value of a parsed query string: a string for a key given once, an
    array for a repeated key, an object for a bracketed key.  This is what
    [req.query.k] holds at run time, whatever type the source casts it
    to. *)
#[warnings="-register-all"]
Inductive QueryValue : Type :=
| QString (s : string)
| QArray (items : list QueryValue)
| QObject (fields : list (string * QueryValue)).

(** Truthiness of a query value or [undefined]: of the strings only the
    empty one is falsy; arrays and objects are truthy. *)
Definition truthy (v : option QueryValue) : bool :=
  match v with
  | None => false
  | Some (QString s) => negb (s =? "")%string
  | Some _ => true
  end.

(** ToString of a query value: a string is itself, an array is its
    elements joined with commas, an object is "[object Object]". *)
Fixpoint ToString_value (v : QueryValue) : string :=
  match v with
  | QString s => s
  | QArray items =>
      (fix join (l : list QueryValue) : string :=
         match l with
         | [] => EmptyString
         | x :: rest =>
             match rest with
             | [] => ToString_value x
             | _ :: _ => ToString_value x ++ "," ++ join rest
             end
         end) items
  | QObject _ => "[object Object]"
  end.

(** ToString on a query value or [undefined], as applied by [parseInt]
    to its argument. *)
Definition ToString (v : option QueryValue) : string :=
  match v with
  | Some x => ToString_value x
  | None => "undefined"
  end.

(** ToString on [string | undefined], as applied by a template literal to
    an interpolated value. *)
Definition ToString_string (v : option string) : string :=
  match v with
  | Some s => s
  | None => "undefined"
  end.

(** [s.split(sep)] for a one-character separator. *)
Fixpoint split (sep : ascii) (s : string) : list string :=
  match s with
  | EmptyString => [EmptyString]
  | String c rest =>
      if Ascii.eqb c sep then EmptyString :: split sep rest
      else match split sep rest with
           | piece :: pieces => String c piece :: pieces
           | [] => [String c EmptyString]
           end
  end.

(** White space skipped by [parseInt], among the code units below 256:
    TAB, LF, VT, FF, CR, SP and NBSP. *)
Definition is_white_space (c : ascii) : bool :=
  let n := N_of_ascii c in
  ((n =? 9) || (n =? 10) || (n =? 11) || (n =? 12) || (n =? 13)
   || (n =? 32) || (n =? 160))%N.

Fixpoint trim_start (s : string) : string :=
  match s with
  | String c rest => if is_white_space c then trim_start rest else s
  | EmptyString => EmptyString
  end.

(** The value of a digit: 0-9, then a-z and A-Z for 10-35. *)
Definition digit_value (c : ascii) : option Z :=
  let n := Z.of_N (N_of_ascii c) in
  if (48 <=? n) && (n <=? 57) then Some (n - 48)
  else if (97 <=? n) && (n <=? 122) then Some (n - 87)
  else if (65 <=? n) && (n <=? 90) then Some (n - 55)
  else None.

Definition radix_digit (R : Z) (c : ascii) : option Z :=
  match digit_value c with
  | Some d => if d <? R then Some d else None
  | None => None
  end.

(** The longest prefix of radix-[R] digits, read as an integer; [None]
    when that prefix is empty. *)
Fixpoint parse_digits (R : Z) (s : string) (acc : option Z) : option Z :=
  match s with
  | String c rest =>
      match radix_digit R c with
      | Some d =>
          parse_digits R rest
            (Some (match acc with Some a => a * R + d | None => d end))
      | None => acc
      end
  | EmptyString => acc
  end.

Definition strip_sign (s : string) : Z * string :=
  match s with
  | String "-" rest => (-1, rest)
  | String "+" rest => (1, rest)
  | _ => (1, s)
  end.

Definition strip_hex_prefix (s : string) : Z * string :=
  match s with
  | String "0" (String "x" rest) => (16, rest)
  | String "0" (String "X" rest) => (16, rest)
  | _ => (10, s)
  end.

(** [parseInt(string)] with no radix argument: the Number value of the
    signed integer read.  (For a decimal numeral of more than 20
    significant digits the language lets an implementation read the later
    digits as zeros before rounding; the model rounds the exact integer
    throughout.) *)
Definition parseInt (input : string) : Number :=
  let '(sign, s1) := strip_sign (trim_start input) in
  let '(R, s2) := strip_hex_prefix s1 in
  match parse_digits R s2 None with
  | None => NaN
  | Some mathInt => F (sign * mathInt)
  end.

End Js.

(** ** Data model *)

(** Modelled from the spec: the permitted actions of section 3, which are
    the members of [Permissions] ([enums/role.enum], not in the source
    file) that the controllers name. *)
Inductive Permissions : Type :=
| CREATE_TASK
| EDIT_TASK
| VIEW_ONLY
| DELETE_TASK.

Definition Permissions_eqb (p q : Permissions) : bool :=
  match p, q with
  | CREATE_TASK, CREATE_TASK
  | EDIT_TASK, EDIT_TASK
  | VIEW_ONLY, VIEW_ONLY
  | DELETE_TASK, DELETE_TASK => true
  | _, _ => false
  end.

(** A role is named by a string, as in the key of the role table. *)
Definition Role : Type := string.

(** Modelled from the spec: the error taxonomy of section 7 (validation,
    authorization, not-found and provider errors); the exception classes
    themselves are declared outside the source file.  [OtherError] stands
    for anything else a collaborator may reject with.  [TypeError] is the
    language's own: it is thrown where the controller calls something
    that is no function. *)
Inductive Exn : Type :=
| ValidationError (detail : string)
| AuthorizationError (detail : string)
| NotFoundError (detail : string)
| ProviderError (detail : string)
| OtherError (detail : string)
| TypeError.

(** Modelled from the spec: the task of section 3 (title, description,
    status, priority, assignee, workspace and project references); the
    controllers read [title] and [description] only. *)
Record Task : Type := {
  task_id : string;
  title : string;
  description : string;
  task_status : string;
  task_priority : string;
  task_assignedTo : option string;
  task_workspace : string;
  task_project : string
}.

(** Modelled from the spec: the user of section 3 (id, name, email). *)
Record User : Type := {
  user_id : string;
  name : string;
  email : string
}.

(** Modelled from the spec: the task body of section 4.2 (title,
    description, assignedTo and the other task attributes), as
    [createTaskSchema.parse] returns it; the controller reads
    [assignedTo] and hands the body on. *)
Record CreateTaskBody : Type := {
  body_title : string;
  body_description : option string;
  body_priority : string;
  body_status : string;
  assignedTo : option string;
  body_dueDate : option string
}.

(** Modelled from the spec: the update body of section 4.3, as
    [updateTaskSchema.parse] returns it; the controller only hands it
    on. *)
Record UpdateTaskBody : Type := {
  upd_title : string;
  upd_description : option string;
  upd_priority : string;
  upd_status : string;
  upd_assignedTo : option string;
  upd_dueDate : option string
}.

(** [interface EmailParams]. *)
Record EmailParams : Type := {
  userEmail : string;
  subject : string;
  message : string
}.

(** The argument of [resend.emails.send]. *)
Record SendPayload : Type := {
  send_from : string;
  send_to : string;
  send_subject : string;
  send_html : string
}.

(** What the provider client resolves with; the helper only logs it. *)
Definition ProviderResponse : Type := string.

(** The [filters] and [pagination] objects of [getAllTasksController]. *)
Record Filters : Type := {
  projectId : option Js.QueryValue;
  status : option (list string);
  priority : option (list string);
  filter_assignedTo : option (list string);
  keyword : option Js.QueryValue;
  dueDate : option Js.QueryValue
}.

Record Pagination : Type := {
  pageSize : Js.Number;
  pageNumber : Js.Number
}.

(** JSON response bodies.  An object lists its properties in the order
    the language enumerates them: the keys that are array indices first,
    in ascending order, then the other keys in the order they were
    added; a key occurs once. *)
Inductive JsonValue : Type :=
| JString (s : string)
| JTask (t : Task)
| JTasks (ts : list Task)
| JNumber (n : Js.Number)
| JOpaque (repr : string).

Definition JsonObject : Type := list (string * JsonValue).

Fixpoint obj_get (k : string) (o : JsonObject) : option JsonValue :=
  match o with
  | [] => None
  | (k', v) :: rest => if (k' =? k)%string then Some v else obj_get k rest
  end.

Fixpoint all_digits (s : string) (acc : Z) : option Z :=
  match s with
  | EmptyString => Some acc
  | String c rest =>
      match Js.radix_digit 10 c with
      | Some d => all_digits rest (acc * 10 + d)
      | None => None
      end
  end.

(** A key is an array index when it is the canonical decimal numeral of
    an integer from 0 to 2^32 - 2. *)
Definition array_index (k : string) : option Z :=
  match k with
  | EmptyString => None
  | String "0" (String _ _) => None
  | _ =>
      match all_digits k 0 with
      | Some n => if n <=? 4294967294 then Some n else None
      | None => None
      end
  end.

(** Whether a new key, of index [i] if it is one, is enumerated before
    the key [k'] already there. *)
Definition comes_before (i : option Z) (k' : string) : bool :=
  match i with
  | None => false
  | Some n =>
      match array_index k' with
      | Some n' => n <? n'
      | None => true
      end
  end.

Fixpoint obj_replace (k : string) (v : JsonValue) (o : JsonObject) : JsonObject :=
  match o with
  | [] => []
  | (k', v') :: rest =>
      if (k' =? k)%string then (k, v) :: rest
      else (k', v') :: obj_replace k v rest
  end.

Fixpoint obj_insert (k : string) (v : JsonValue) (o : JsonObject) : JsonObject :=
  match o with
  | [] => [(k, v)]
  | (k', v') :: rest =>
      if comes_before (array_index k) k' then (k, v) :: (k', v') :: rest
      else (k', v') :: obj_insert k v rest
  end.

(** Setting a property: an existing key keeps its place and takes the new
    value, a new key takes its place in the enumeration order. *)
Definition obj_set (k : string) (v : JsonValue) (o : JsonObject) : JsonObject :=
  match obj_get k o with
  | Some _ => obj_replace k v o
  | None => obj_insert k v o
  end.

(** [{ ...o, ...src }]. *)
Definition obj_spread (o src : JsonObject) : JsonObject :=
  fold_left (fun acc kv => obj_set (fst kv) (snd kv) acc) src o.

(** What [res.status(code).json(body)] sends. *)
Record Response : Type := {
  res_status : Z;
  res_json : JsonObject
}.

(** Modelled from the spec: the two members of [HTTPSTATUS]
    ([config/http.config]) the controllers use, 200 OK and 400 Bad
    Request (section 6). *)
Module HTTPSTATUS.
Definition OK : Z := 200.
Definition BAD_REQUEST : Z := 400.
End HTTPSTATUS.

(** The parts of an Express request the controllers read.  Header names
    arrive in lower case.  [query] is the object the query parser made
    of the query string, one entry per key: a key given once holds a
    string, a repeated key an array, a bracketed key an object; the casts
    of the source ([as string]) check nothing at run time. *)
Record Request : Type := {
  headers : list (string * string);
  params : list (string * string);
  query : list (string * Js.QueryValue);
  req_body : string
}.

Fixpoint lookup {V : Type} (k : string) (kvs : list (string * V)) : option V :=
  match kvs with
  | [] => None
  | (k', v) :: rest => if (k' =? k)%string then Some v else lookup k rest
  end.

(** ** Effects *)

(** Every call that leaves the controller is recorded, in order. *)
Inductive Event : Type :=
| EvGetMemberRoleInWorkspace (userId : option string) (workspaceId : string)
| EvCreateTaskService (workspaceId projectId : string)
    (userId : option string) (body : CreateTaskBody)
| EvUpdateTaskService (workspaceId projectId taskId : string)
    (body : UpdateTaskBody)
| EvGetAllTasksService (workspaceId : string) (filters : Filters)
    (pagination : Pagination)
| EvGetTaskByIdService (workspaceId projectId taskId : string)
| EvDeleteTaskService (workspaceId taskId : string)
| EvFindById (id : option string)
| EvResendSend (payload : SendPayload)
| EvConsoleLog (label : string) (response : ProviderResponse)
| EvConsoleError (label : string) (error : Exn).

Inductive Outcome (A : Type) : Type :=
| Returned (a : A)
| Threw (e : Exn).
Arguments Returned {A} a.
Arguments Threw {A} e.

(** What a wrapped handler ends with: a response sent, or the error
    passed on to the central error responder. *)
Inductive Handled : Type :=
| Responded (r : Response)
| Forwarded (e : Exn).

Section Controllers.

(** The state of everything outside the process: the database behind the
    services and the user model, and the e-mail provider. *)
Context {World : Type}.

Record State : Type := {
  world : World;
  trace : list Event
}.

(** A computation reads and changes the state and returns or throws.  An
    [await] runs the awaited call to its end before the next statement:
    one request is one sequential run. *)
Definition M (A : Type) : Type := State -> Outcome A * State.

Definition ret {A} (a : A) : M A := fun s => (Returned a, s).

Definition bind {A B} (m : M A) (k : A -> M B) : M B :=
  fun s =>
    match m s with
    | (Returned a, s') => k a s'
    | (Threw e, s') => (Threw e, s')
    end.

(** [try { m } catch (error) { h error }]. *)
Definition try_catch {A} (m : M A) (h : Exn -> M A) : M A :=
  fun s =>
    match m s with
    | (Returned a, s') => (Returned a, s')
    | (Threw e, s') => h e s'
    end.

(** A synchronous call that returns or throws and touches nothing. *)
Definition sync {A} (r : Exn + A) : M A :=
  fun s =>
    match r with
    | inr a => (Returned a, s)
    | inl e => (Threw e, s)
    end.

Definition emit (ev : Event) : M unit :=
  fun s => (Returned tt, {| world := world s; trace := trace s ++ [ev] |}).

(** An awaited call to a collaborator: the call is recorded, then it acts
    on the world and resolves or rejects. *)
Definition await {A} (ev : Event) (call : World -> (Exn + A) * World) : M A :=
  fun s =>
    let '(r, w) := call (world s) in
    let s' := {| world := w; trace := trace s ++ [ev] |} in
    match r with
    | inr a => (Returned a, s')
    | inl e => (Threw e, s')
    end.

Notation "x <- m ;; k" := (bind m (fun x => k))
  (at level 61, m at next level, right associativity).
Notation "m ;;; k" := (bind m (fun _ => k))
  (at level 61, right associativity).

(** The collaborators of the controllers: everything the source file
    imports.  Schemas are pure parsers; services, the user model and the
    provider client act on the world. *)
Record Collaborators : Type := {
  createTaskSchema_parse : string -> Exn + CreateTaskBody;
  updateTaskSchema_parse : string -> Exn + UpdateTaskBody;
  taskIdSchema_parse : option string -> Exn + string;
  projectIdSchema_parse : option string -> Exn + string;
  workspaceIdSchema_parse : option string -> Exn + string;
  RolePermissions : Role -> list Permissions;
  getMemberRoleInWorkspace_impl :
    option string -> string -> World -> (Exn + Role) * World;
  createTaskService_impl :
    string -> string -> option string -> CreateTaskBody ->
    World -> (Exn + Task) * World;
  updateTaskService_impl :
    string -> string -> string -> UpdateTaskBody ->
    World -> (Exn + Task) * World;
  getAllTasksService_impl :
    string -> Filters -> Pagination -> World -> (Exn + JsonObject) * World;
  getTaskByIdService_impl :
    string -> string -> string -> World -> (Exn + Task) * World;
  deleteTaskService_impl : string -> string -> World -> (Exn + unit) * World;
  UserModel_findById_impl : option string -> World -> (Exn + option User) * World;
  resend_emails_send_impl : SendPayload -> World -> (Exn + ProviderResponse) * World;
  FRONTEND_ORIGIN : option string
}.

Variable env : Collaborators.

(** The awaited calls, each with the event that records it. *)
Definition getMemberRoleInWorkspace (userId : option string) (workspaceId : string)
  : M Role :=
  await (EvGetMemberRoleInWorkspace userId workspaceId)
    (getMemberRoleInWorkspace_impl env userId workspaceId).

Definition createTaskService (workspaceId projectId : string)
    (userId : option string) (body : CreateTaskBody) : M Task :=
  await (EvCreateTaskService workspaceId projectId userId body)
    (createTaskService_impl env workspaceId projectId userId body).

Definition updateTaskService (workspaceId projectId taskId : string)
    (body : UpdateTaskBody) : M Task :=
  await (EvUpdateTaskService workspaceId projectId taskId body)
    (updateTaskService_impl env workspaceId projectId taskId body).

Definition getAllTasksService (workspaceId : string) (filters : Filters)
    (pagination : Pagination) : M JsonObject :=
  await (EvGetAllTasksService workspaceId filters pagination)
    (getAllTasksService_impl env workspaceId filters pagination).

Definition getTaskByIdService (workspaceId projectId taskId : string) : M Task :=
  await (EvGetTaskByIdService workspaceId projectId taskId)
    (getTaskByIdService_impl env workspaceId projectId taskId).

Definition deleteTaskService (workspaceId taskId : string) : M unit :=
  await (EvDeleteTaskService workspaceId taskId)
    (deleteTaskService_impl env workspaceId taskId).

Definition UserModel_findById (id : option string) : M (option User) :=
  await (EvFindById id) (UserModel_findById_impl env id).

Definition resend_emails_send (payload : SendPayload) : M ProviderResponse :=
  await (EvResendSend payload) (resend_emails_send_impl env payload).

Definition console_log (label : string) (response : ProviderResponse) : M unit :=
  emit (EvConsoleLog label response).

Definition console_error (label : string) (error : Exn) : M unit :=
  emit (EvConsoleError label error).

(** Modelled from the spec: a role maps to a set of permitted actions
    (section 3); the role holds [required] when each of them is in its
    set. *)
Definition has_permissions (role : Role) (required : list Permissions) : bool :=
  forallb
    (fun p => existsb (Permissions_eqb p) (RolePermissions env role))
    required.

(** Modelled from the spec: [roleGuard] ([utils/roleGuard], not in the
    source file) throws an authorization error when the role lacks a
    required permission (section 2, item 2; section 4.2, step 3) and
    returns otherwise. *)
Definition roleGuard (role : Role) (required : list Permissions) : Exn + unit :=
  if has_permissions role required then inr tt
  else inl (AuthorizationError "forbidden").

(** Modelled from the spec: [asyncHandler]
    ([middlewares/asyncHandler.middleware], not in the source file) runs
    the controller and passes a rejection on to the central error
    responder (section 7). *)
Definition asyncHandler (controller : Request -> M Response)
  : Request -> State -> Handled * State :=
  fun req s =>
    match controller req s with
    | (Returned r, s') => (Responded r, s')
    | (Threw e, s') => (Forwarded e, s')
    end.

Definition res_status_json (code : Z) (body : JsonObject) : M Response :=
  ret {| res_status := code; res_json := body |}.

(** *** [notifyUser] *)

Definition notifyUser (p : EmailParams) : M unit :=
  try_catch
    (response <- resend_emails_send
       {| send_from := "no-reply@techriserwanda.org";
          send_to := userEmail p;
          send_subject := subject p;
          send_html := message p |} ;;
     console_log "Email sent successfully:" response)
    (fun error => console_error "Error sending email:" error).

(** *** [createTaskController] *)

Definition nl : string := String (ascii_of_nat 10) EmptyString.

(** The template literal of the notification, line by line. *)
Definition compose_message (assignedUser : User) (task : Task)
    (workspaceId projectId : string) : string :=
  nl ++
  "      <p>Hello " ++ name assignedUser ++ ",</p>" ++ nl ++
  "      <p>You have been assigned a new task. <strong><a href=https://"
    ++ Js.ToString_string (FRONTEND_ORIGIN env) ++ "/workspace/" ++ workspaceId
    ++ "/project/" ++ projectId ++ ">View Project</a></strong>.</p>" ++ nl ++
  "      <p><strong>Task Details:</strong></p>" ++ nl ++
  "      <p><strong>Title:</strong> " ++ title task ++ "</p>" ++ nl ++
  "      <p><strong>Description:</strong> " ++ description task ++ "</p>" ++ nl ++
  "      <p>Please check the task board for further details.</p>" ++ nl ++
  "      <p>Best regards,<br/>TechRise Bot.</p>" ++ nl ++
  "    ".

Definition createTask (req : Request) : M Response :=
  let userId := lookup "userid" (headers req) in
  body <- sync (createTaskSchema_parse env (req_body req)) ;;
  projectId <- sync (projectIdSchema_parse env (lookup "projectId" (params req))) ;;
  workspaceId <- sync (workspaceIdSchema_parse env (lookup "workspaceId" (params req))) ;;
  role <- getMemberRoleInWorkspace userId workspaceId ;;
  sync (roleGuard role [CREATE_TASK]) ;;;
  task <- createTaskService workspaceId projectId userId body ;;
  assignedUser <- UserModel_findById (assignedTo body) ;;
  match assignedUser with
  | None =>
      res_status_json HTTPSTATUS.BAD_REQUEST
        [("message", JString "Assigned user not found.")]
  | Some assignedUser =>
      let assignedEmail := email assignedUser in
      let subject := "Task Assigned: " ++ title task in
      let message := compose_message assignedUser task workspaceId projectId in
      try_catch
        (notifyUser {| userEmail := assignedEmail;
                       subject := subject;
                       message := message |})
        (fun error => console_error "Error sending email:" error) ;;;
      res_status_json HTTPSTATUS.OK
        [("message", JString "Task created successfully and notification sent.");
         ("task", JTask task)]
  end.

Definition createTaskController := asyncHandler createTask.

(** *** [updateTaskController] *)

Definition updateTask (req : Request) : M Response :=
  let userId := lookup "userid" (headers req) in
  body <- sync (updateTaskSchema_parse env (req_body req)) ;;
  taskId <- sync (taskIdSchema_parse env (lookup "id" (params req))) ;;
  projectId <- sync (projectIdSchema_parse env (lookup "projectId" (params req))) ;;
  workspaceId <- sync (workspaceIdSchema_parse env (lookup "workspaceId" (params req))) ;;
  role <- getMemberRoleInWorkspace userId workspaceId ;;
  sync (roleGuard role [EDIT_TASK]) ;;;
  updatedTask <- updateTaskService workspaceId projectId taskId body ;;
  res_status_json HTTPSTATUS.OK
    [("message", JString "Task updated successfully");
     ("task", JTask updatedTask)].

Definition updateTaskController := asyncHandler updateTask.

(** *** [getAllTasksController] *)

(** [v ? v.split(",") : undefined].  A string has the method; on an
    array or an object [v.split] is no function (the optional chaining
    guards against a missing [v] only), and the call throws. *)
Definition split_if_truthy (v : option Js.QueryValue)
  : Exn + option (list string) :=
  if Js.truthy v then
    match v with
    | Some (Js.QString s) => inr (Some (Js.split "," s))
    | _ => inl TypeError
    end
  else inr None.

(** The [filters] object literal, its properties evaluated in order. *)
Definition build_filters (q : list (string * Js.QueryValue)) : Exn + Filters :=
  match split_if_truthy (lookup "status" q) with
  | inl e => inl e
  | inr status_list =>
      match split_if_truthy (lookup "priority" q) with
      | inl e => inl e
      | inr priority_list =>
          match split_if_truthy (lookup "assignedTo" q) with
          | inl e => inl e
          | inr assignedTo_list =>
              inr {| projectId := lookup "projectId" q;
                     status := status_list;
                     priority := priority_list;
                     filter_assignedTo := assignedTo_list;
                     keyword := lookup "keyword" q;
                     dueDate := lookup "dueDate" q |}
          end
      end
  end.

Definition build_pagination (q : list (string * Js.QueryValue)) : Pagination :=
  {| pageSize :=
       Js.or (Js.parseInt (Js.ToString (lookup "pageSize" q))) (Js.Int 10);
     pageNumber :=
       Js.or (Js.parseInt (Js.ToString (lookup "pageNumber" q))) (Js.Int 1) |}.

Definition getAllTasks (req : Request) : M Response :=
  let userId := lookup "userid" (headers req) in
  workspaceId <- sync (workspaceIdSchema_parse env (lookup "workspaceId" (params req))) ;;
  filters <- sync (build_filters (query req)) ;;
  let pagination := build_pagination (query req) in
  role <- getMemberRoleInWorkspace userId workspaceId ;;
  sync (roleGuard role [VIEW_ONLY]) ;;;
  result <- getAllTasksService workspaceId filters pagination ;;
  res_status_json HTTPSTATUS.OK
    (obj_spread [("message", JString "All tasks fetched successfully")] result).

Definition getAllTasksController := asyncHandler getAllTasks.

(** *** [getTaskByIdController] *)

Definition getTaskById (req : Request) : M Response :=
  let userId := lookup "userid" (headers req) in
  taskId <- sync (taskIdSchema_parse env (lookup "id" (params req))) ;;
  projectId <- sync (projectIdSchema_parse env (lookup "projectId" (params req))) ;;
  workspaceId <- sync (workspaceIdSchema_parse env (lookup "workspaceId" (params req))) ;;
  role <- getMemberRoleInWorkspace userId workspaceId ;;
  sync (roleGuard role [VIEW_ONLY]) ;;;
  task <- getTaskByIdService workspaceId projectId taskId ;;
  res_status_json HTTPSTATUS.OK
    [("message", JString "Task fetched successfully");
     ("task", JTask task)].

Definition getTaskByIdController := asyncHandler getTaskById.

(** *** [deleteTaskController] *)

Definition deleteTask (req : Request) : M Response :=
  let userId := lookup "userid" (headers req) in
  taskId <- sync (taskIdSchema_parse env (lookup "id" (params req))) ;;
  workspaceId <- sync (workspaceIdSchema_parse env (lookup "workspaceId" (params req))) ;;
  role <- getMemberRoleInWorkspace userId workspaceId ;;
  sync (roleGuard role [DELETE_TASK]) ;;;
  deleteTaskService workspaceId taskId ;;;
  res_status_json HTTPSTATUS.OK
    [("message", JString "Task deleted successfully")].

Definition deleteTaskController := asyncHandler deleteTask.

End Controllers.

(** ** Vocabulary of the properties *)

(** The three mutating endpoints, each with the permission its controller
    asks for. *)
Inductive MutatingEndpoint : Type :=
| CreateTaskEndpoint
| UpdateTaskEndpoint
| DeleteTaskEndpoint.

Definition required_permission (e : MutatingEndpoint) : Permissions :=
  match e with
  | CreateTaskEndpoint => CREATE_TASK
  | UpdateTaskEndpoint => EDIT_TASK
  | DeleteTaskEndpoint => DELETE_TASK
  end.

Definition mutating_controller {World : Type} (env : @Collaborators World)
    (e : MutatingEndpoint) : Request -> State -> Handled * State :=
  match e with
  | CreateTaskEndpoint => createTaskController env
  | UpdateTaskEndpoint => updateTaskController env
  | DeleteTaskEndpoint => deleteTaskController env
  end.

Definition userid_of (req : Request) : option string :=
  lookup "userid" (headers req).

(** The request passes the schemas of the create controller. *)
Definition create_parses {World : Type} (env : @Collaborators World)
    (req : Request) (body : CreateTaskBody) (pid wid : string) : Prop :=
  createTaskSchema_parse env (req_body req) = inr body /\
  projectIdSchema_parse env (lookup "projectId" (params req)) = inr pid /\
  workspaceIdSchema_parse env (lookup "workspaceId" (params req)) = inr wid.

Definition update_parses {World : Type} (env : @Collaborators World)
    (req : Request) (body : UpdateTaskBody) (tid pid wid : string) : Prop :=
  updateTaskSchema_parse env (req_body req) = inr body /\
  taskIdSchema_parse env (lookup "id" (params req)) = inr tid /\
  projectIdSchema_parse env (lookup "projectId" (params req)) = inr pid /\
  workspaceIdSchema_parse env (lookup "workspaceId" (params req)) = inr wid.

Definition delete_parses {World : Type} (env : @Collaborators World)
    (req : Request) (tid wid : string) : Prop :=
  taskIdSchema_parse env (lookup "id" (params req)) = inr tid /\
  workspaceIdSchema_parse env (lookup "workspaceId" (params req)) = inr wid.

(** The request passes every schema its controller applies, and [wid] is
    the workspace id they yield. *)
Definition passes_validation {World : Type} (env : @Collaborators World)
    (e : MutatingEndpoint) (req : Request) (wid : string) : Prop :=
  match e with
  | CreateTaskEndpoint => exists body pid, create_parses env req body pid wid
  | UpdateTaskEndpoint => exists body tid pid, update_parses env req body tid pid wid
  | DeleteTaskEndpoint => exists tid, delete_parses env req tid wid
  end.

(** The calls of a trace that change tasks. *)
Definition is_mutation (ev : Event) : bool :=
  match ev with
  | EvCreateTaskService _ _ _ _
  | EvUpdateTaskService _ _ _ _
  | EvDeleteTaskService _ _ => true
  | _ => false
  end.

(** The e-mails a trace attempts to send. *)
Fixpoint sends (evs : list Event) : list SendPayload :=
  match evs with
  | [] => []
  | EvResendSend payload :: rest => payload :: sends rest
  | _ :: rest => sends rest
  end.

(** The events only [notifyUser] and its caller's [catch] produce. *)
Definition is_notification (ev : Event) : bool :=
  match ev with
  | EvResendSend _ | EvConsoleLog _ _ | EvConsoleError _ _ => true
  | _ => false
  end.

(** The payload the create controller hands to the provider. *)
Definition assignment_payload {World : Type} (env : @Collaborators World)
    (assignedUser : User) (task : Task) (wid pid : string) : SendPayload :=
  {| send_from := "no-reply@techriserwanda.org";
     send_to := email assignedUser;
     send_subject := "Task Assigned: " ++ title task;
     send_html := compose_message env assignedUser task wid pid |}.

Definition created_response (task : Task) : Response :=
  {| res_status := 200;
     res_json :=
       [("message", JString "Task created successfully and notification sent.");
        ("task", JTask task)] |}.

(** A computation whose result and effect on the world do not depend on
    the trace it starts from: the trace is only written. *)
Definition oblivious {World A : Type} (m : @M World A) : Prop :=
  forall s1 s2,
    world s1 = world s2 ->
    fst (m s1) = fst (m s2) /\ world (snd (m s1)) = world (snd (m s2)).

(** The read controller looks at four things in a request: the caller's
    id and the three path parameters. *)
Definition same_read (req1 req2 : Request) : Prop :=
  userid_of req1 = userid_of req2 /\
  lookup "id" (params req1) = lookup "id" (params req2) /\
  lookup "projectId" (params req1) = lookup "projectId" (params req2) /\
  lookup "workspaceId" (params req1) = lookup "workspaceId" (params req2).

(** Two requests name the same task: the same task, project and
    workspace ids. *)
Definition same_task (req1 req2 : Request) : Prop :=
  lookup "id" (params req1) = lookup "id" (params req2) /\
  lookup "projectId" (params req1) = lookup "projectId" (params req2) /\
  lookup "workspaceId" (params req1) = lookup "workspaceId" (params req2).

(** Modelled from the spec: the two collaborators of the read-one
    controller, which are not in the source file, only read: the role
    lookup resolves the caller's role (section 2, item 2) and the read
    service fetches a single task (section 4.5); neither writes to the
    store. *)
Definition read_only_collaborators {World : Type} (env : @Collaborators World)
  : Prop :=
  (forall userId wid w,
     snd (getMemberRoleInWorkspace_impl env userId wid w) = w) /\
  (forall wid pid tid w,
     snd (getTaskByIdService_impl env wid pid tid w) = w).

(** The list parameters of the listing query as the spec words them:
    split on commas, undefined when absent. *)
Definition spec_list_param (v : option string) : option (list string) :=
  match v with
  | Some s => Some (Js.split "," s)
  | None => None
  end.

(** The three comma-separated parameters of the listing query, each with
    its key and its place in the filter object. *)
Inductive ListParam : Type :=
| StatusParam
| PriorityParam
| AssignedToParam.

Definition list_key (f : ListParam) : string :=
  match f with
  | StatusParam => "status"
  | PriorityParam => "priority"
  | AssignedToParam => "assignedTo"
  end.

Definition list_field (f : ListParam) (fs : Filters) : option (list string) :=
  match f with
  | StatusParam => status fs
  | PriorityParam => priority fs
  | AssignedToParam => filter_assignedTo fs
  end.

(** A query value that is present and is no string: the array of a
    repeated key or the object of a bracketed one. *)
Definition not_a_string (v : option Js.QueryValue) : Prop :=
  match v with
  | Some (Js.QArray _) | Some (Js.QObject _) => True
  | _ => False
  end.

(** The status list of a filter object that was built, if it was. *)
Definition built_status (r : Exn + Filters) : Exn + option (list string) :=
  match r with
  | inr filters => inr (status filters)
  | inl e => inl e
  end.

(** The query of the spec's example:
    [status=a,b&priority=x&pageSize=5&pageNumber=2]. *)
Definition example_query : list (string * Js.QueryValue) :=
  [("status", Js.QString "a,b"); ("priority", Js.QString "x");
   ("pageSize", Js.QString "5"); ("pageNumber", Js.QString "2")].

(** The two pagination parameters, each with its key, default and place
    in the pagination object. *)
Inductive PageParam : Type :=
| PageSize
| PageNumber.

Definition page_key (f : PageParam) : string :=
  match f with
  | PageSize => "pageSize"
  | PageNumber => "pageNumber"
  end.

Definition page_default (f : PageParam) : Z :=
  match f with
  | PageSize => 10
  | PageNumber => 1
  end.

Definition page_field (f : PageParam) (p : Pagination) : Js.Number :=
  match f with
  | PageSize => pageSize p
  | PageNumber => pageNumber p
  end.

(** The five endpoints of the file, each with its controller, the
    permission its guard asks for and the message of its 200 response. *)
Inductive Endpoint : Type :=
| CreateEndpoint
| UpdateEndpoint
| ListEndpoint
| GetEndpoint
| DeleteEndpoint.

Definition controller {World : Type} (env : @Collaborators World)
    (ep : Endpoint) : Request -> State -> Handled * State :=
  match ep with
  | CreateEndpoint => createTaskController env
  | UpdateEndpoint => updateTaskController env
  | ListEndpoint => getAllTasksController env
  | GetEndpoint => getTaskByIdController env
  | DeleteEndpoint => deleteTaskController env
  end.

Definition guard_permission (ep : Endpoint) : Permissions :=
  match ep with
  | CreateEndpoint => CREATE_TASK
  | UpdateEndpoint => EDIT_TASK
  | ListEndpoint => VIEW_ONLY
  | GetEndpoint => VIEW_ONLY
  | DeleteEndpoint => DELETE_TASK
  end.

Definition success_message (ep : Endpoint) : string :=
  match ep with
  | CreateEndpoint => "Task created successfully and notification sent."
  | UpdateEndpoint => "Task updated successfully"
  | ListEndpoint => "All tasks fetched successfully"
  | GetEndpoint => "Task fetched successfully"
  | DeleteEndpoint => "Task deleted successfully"
  end.

(** The request passes the schemas of the read-one controller. *)
Definition get_parses {World : Type} (env : @Collaborators World)
    (req : Request) (tid pid wid : string) : Prop :=
  taskIdSchema_parse env (lookup "id" (params req)) = inr tid /\
  projectIdSchema_parse env (lookup "projectId" (params req)) = inr pid /\
  workspaceIdSchema_parse env (lookup "workspaceId" (params req)) = inr wid.

(** The request passes every schema the endpoint's controller applies,
    and [wid] is the workspace id they yield. *)
Definition validated {World : Type} (env : @Collaborators World)
    (ep : Endpoint) (req : Request) (wid : string) : Prop :=
  match ep with
  | CreateEndpoint => exists body pid, create_parses env req body pid wid
  | UpdateEndpoint => exists body tid pid, update_parses env req body tid pid wid
  | ListEndpoint =>
      workspaceIdSchema_parse env (lookup "workspaceId" (params req)) = inr wid
  | GetEndpoint => exists tid pid, get_parses env req tid pid wid
  | DeleteEndpoint => exists tid, delete_parses env req tid wid
  end.


(** The calls of a trace that read tasks. *)
Definition is_read (ev : Event) : bool :=
  match ev with
  | EvGetAllTasksService _ _ _ | EvGetTaskByIdService _ _ _ => true
  | _ => false
  end.

Definition assignee_not_found_response : Response :=
  {| res_status := 400;
     res_json := [("message", JString "Assigned user not found.")] |}.

(** Whether a character occurs in a string. *)
Fixpoint has_char (c : ascii) (s : string) : bool :=
  match s with
  | EmptyString => false
  | String c' rest => Ascii.eqb c' c || has_char c rest
  end.

(** A decimal numeral: its digits, most significant first, as text and
    as the integer they denote. *)
Definition digit_char (d : Z) : ascii := ascii_of_N (Z.to_N (48 + d)).

Fixpoint numeral (ds : list Z) : string :=
  match ds with
  | [] => EmptyString
  | d :: rest => String (digit_char d) (numeral rest)
  end.

Definition numeral_value (ds : list Z) : Z :=
  fold_left (fun acc d => acc * 10 + d) ds 0.

Definition is_digit (d : Z) : Prop := 0 <= d <= 9.

(** A tail that would turn a lone 0 into the prefix of a hexadecimal
    numeral. *)
Definition no_hex_mark (rest : string) : Prop :=
  match rest with
  | EmptyString => True
  | String c _ => c <> "x"%char /\ c <> "X"%char
  end.

(** What the delete and read-one controllers read in a request. *)
Definition same_delete (req1 req2 : Request) : Prop :=
  userid_of req1 = userid_of req2 /\
  lookup "id" (params req1) = lookup "id" (params req2) /\
  lookup "workspaceId" (params req1) = lookup "workspaceId" (params req2).

(** What may follow the digits of a numeral without changing what
    [parseInt] reads: nothing, or a character that is no decimal digit. *)
Definition stops_numeral (rest : string) : Prop :=
  match rest with
  | EmptyString => True
  | String c _ => Js.radix_digit 10 c = None
  end.

(** ** A concrete deployment

    A small in-memory world and a set of collaborators over it, used to
    run the controllers on concrete requests. *)

Module Demo.

Record World : Type := {
  tasks : list Task;
  outbox : list SendPayload
}.

Definition empty : World := {| tasks := []; outbox := [] |}.

Definition ada : User :=
  {| user_id := "u1"; name := "Ada"; email := "ada@example.org" |}.

(** A body is "title,assignee"; anything else is rejected. *)
Definition parse_create (raw : string) : Exn + CreateTaskBody :=
  match Js.split "," raw with
  | [t; a] =>
      if (t =? "")%string then inl (ValidationError "title")
      else inr {| body_title := t; body_description := None;
                  body_priority := "MEDIUM"; body_status := "TODO";
                  assignedTo := Some a; body_dueDate := None |}
  | _ => inl (ValidationError "body")
  end.

Definition parse_update (raw : string) : Exn + UpdateTaskBody :=
  if (raw =? "")%string then inl (ValidationError "body")
  else inr {| upd_title := raw; upd_description := None;
              upd_priority := "MEDIUM"; upd_status := "TODO";
              upd_assignedTo := None; upd_dueDate := None |}.

Definition parse_id (v : option string) : Exn + string :=
  match v with
  | Some s => if (s =? "")%string then inl (ValidationError "id") else inr s
  | None => inl (ValidationError "id")
  end.

Definition role_table (role : Role) : list Permissions :=
  if (role =? "OWNER")%string then [CREATE_TASK; EDIT_TASK; VIEW_ONLY; DELETE_TASK]
  else if (role =? "MEMBER")%string then [CREATE_TASK; EDIT_TASK; VIEW_ONLY]
  else [VIEW_ONLY].

Definition member_role (userId : option string) (wid : string) (w : World)
  : (Exn + Role) * World :=
  match userId with
  | Some "alice" => (inr "OWNER", w)
  | Some "bob" => (inr "MEMBER", w)
  | Some "carol" => (inr "VIEWER", w)
  | _ => (inl (AuthorizationError "not a member"), w)
  end.

Definition new_task (wid pid : string) (body : CreateTaskBody) : Task :=
  {| task_id := "t1"; title := body_title body; description := "";
     task_status := body_status body; task_priority := body_priority body;
     task_assignedTo := assignedTo body;
     task_workspace := wid; task_project := pid |}.

Definition create (wid pid : string) (userId : option string)
    (body : CreateTaskBody) (w : World) : (Exn + Task) * World :=
  let t := new_task wid pid body in
  (inr t, {| tasks := tasks w ++ [t]; outbox := outbox w |}).

Definition find_task (tid : string) (w : World) : option Task :=
  find (fun t => (task_id t =? tid)%string) (tasks w).

Definition retitle (t : Task) (new_title : string) : Task :=
  {| task_id := task_id t; title := new_title; description := description t;
     task_status := task_status t; task_priority := task_priority t;
     task_assignedTo := task_assignedTo t;
     task_workspace := task_workspace t; task_project := task_project t |}.

Definition update (wid pid tid : string) (body : UpdateTaskBody) (w : World)
  : (Exn + Task) * World :=
  match find_task tid w with
  | Some t =>
      let t' := retitle t (upd_title body) in
      (inr t',
       {| tasks :=
            map (fun x => if (task_id x =? tid)%string then t' else x) (tasks w);
          outbox := outbox w |})
  | None => (inl (NotFoundError "task"), w)
  end.

Definition get_all (wid : string) (f : Filters) (p : Pagination) (w : World)
  : (Exn + JsonObject) * World :=
  (inr [("tasks", JTasks (tasks w)); ("pageSize", JNumber (pageSize p))], w).

Definition get_by_id (wid pid tid : string) (w : World) : (Exn + Task) * World :=
  match find_task tid w with
  | Some t => (inr t, w)
  | None => (inl (NotFoundError "task"), w)
  end.

Definition delete (wid tid : string) (w : World) : (Exn + unit) * World :=
  (inr tt,
   {| tasks := filter (fun t => negb (task_id t =? tid)%string) (tasks w);
      outbox := outbox w |}).

Definition find_user (id : option string) (w : World)
  : (Exn + option User) * World :=
  match id with
  | Some "u1" => (inr (Some ada), w)
  | _ => (inr None, w)
  end.

(** The provider either accepts the mail or rejects the call. *)
Definition send (up : bool) (payload : SendPayload) (w : World)
  : (Exn + ProviderResponse) * World :=
  if up then (inr "queued", {| tasks := tasks w; outbox := outbox w ++ [payload] |})
  else (inl (ProviderError "provider unavailable"), w).

Definition env (provider_up : bool) : @Collaborators World :=
  {| createTaskSchema_parse := parse_create;
     updateTaskSchema_parse := parse_update;
     taskIdSchema_parse := parse_id;
     projectIdSchema_parse := parse_id;
     workspaceIdSchema_parse := parse_id;
     RolePermissions := role_table;
     getMemberRoleInWorkspace_impl := member_role;
     createTaskService_impl := create;
     updateTaskService_impl := update;
     getAllTasksService_impl := get_all;
     getTaskByIdService_impl := get_by_id;
     deleteTaskService_impl := delete;
     UserModel_findById_impl := find_user;
     resend_emails_send_impl := send provider_up;
     FRONTEND_ORIGIN := Some "app.example.org" |}.

Definition start : @State World := {| world := empty; trace := [] |}.

Definition request (user raw : string) : Request :=
  {| headers := [("userid", user)];
     params := [("workspaceId", "w1"); ("projectId", "p1"); ("id", "t1")];
     query := [];
     req_body := raw |}.

Definition report_body (assignee : string) : CreateTaskBody :=
  {| body_title := "Write report"; body_description := None;
     body_priority := "MEDIUM"; body_status := "TODO";
     assignedTo := Some assignee; body_dueDate := None |}.

Definition report_task (assignee : string) : Task :=
  new_task "w1" "p1" (report_body assignee).

Definition stored (t : Task) : World := {| tasks := [t]; outbox := [] |}.

Definition new_title : UpdateTaskBody :=
  {| upd_title := "New title"; upd_description := None;
     upd_priority := "MEDIUM"; upd_status := "TODO";
     upd_assignedTo := None; upd_dueDate := None |}.

(** The world once the task "t1" exists. *)
Definition with_task : @State World :=
  snd (createTaskController (env true) (request "alice" "Write report,u1") start).

(** The same deployment with the task store out of reach: creation is
    rejected. *)
Definition create_down (wid pid : string) (userId : option string)
    (body : CreateTaskBody) (w : World) : (Exn + Task) * World :=
  (inl (OtherError "task store unavailable"), w).

Definition env_create_down : @Collaborators World :=
  {| createTaskSchema_parse := parse_create;
     updateTaskSchema_parse := parse_update;
     taskIdSchema_parse := parse_id;
     projectIdSchema_parse := parse_id;
     workspaceIdSchema_parse := parse_id;
     RolePermissions := role_table;
     getMemberRoleInWorkspace_impl := member_role;
     createTaskService_impl := create_down;
     updateTaskService_impl := update;
     getAllTasksService_impl := get_all;
     getTaskByIdService_impl := get_by_id;
     deleteTaskService_impl := delete;
     UserModel_findById_impl := find_user;
     resend_emails_send_impl := send true;
     FRONTEND_ORIGIN := Some "app.example.org" |}.

(** The same deployment with the user collection out of reach: the
    lookup of the assignee is rejected. *)
Definition find_user_down (id : option string) (w : World)
  : (Exn + option User) * World :=
  (inl (OtherError "user store unavailable"), w).

Definition env_users_down : @Collaborators World :=
  {| createTaskSchema_parse := parse_create;
     updateTaskSchema_parse := parse_update;
     taskIdSchema_parse := parse_id;
     projectIdSchema_parse := parse_id;
     workspaceIdSchema_parse := parse_id;
     RolePermissions := role_table;
     getMemberRoleInWorkspace_impl := member_role;
     createTaskService_impl := create;
     updateTaskService_impl := update;
     getAllTasksService_impl := get_all;
     getTaskByIdService_impl := get_by_id;
     deleteTaskService_impl := delete;
     UserModel_findById_impl := find_user_down;
     resend_emails_send_impl := send true;
     FRONTEND_ORIGIN := Some "app.example.org" |}.

(** A listing service whose result carries a message of its own. *)
Definition get_all_with_message (wid : string) (f : Filters) (p : Pagination)
    (w : World) : (Exn + JsonObject) * World :=
  (inr [("tasks", JTasks (tasks w)); ("message", JString "from the service")], w).

Definition env_list_message : @Collaborators World :=
  {| createTaskSchema_parse := parse_create;
     updateTaskSchema_parse := parse_update;
     taskIdSchema_parse := parse_id;
     projectIdSchema_parse := parse_id;
     workspaceIdSchema_parse := parse_id;
     RolePermissions := role_table;
     getMemberRoleInWorkspace_impl := member_role;
     createTaskService_impl := create;
     updateTaskService_impl := update;
     getAllTasksService_impl := get_all_with_message;
     getTaskByIdService_impl := get_by_id;
     deleteTaskService_impl := delete;
     UserModel_findById_impl := find_user;
     resend_emails_send_impl := send true;
     FRONTEND_ORIGIN := Some "app.example.org" |}.




(** The same deployment with the two read collaborators written as a
    result paired with the untouched world. *)
Definition role_name (userId : option string) : Exn + Role :=
  fst (member_role userId "" empty).

Definition member_role_read (userId : option string) (wid : string) (w : World)
  : (Exn + Role) * World :=
  (role_name userId, w).

Definition get_by_id_read (wid pid tid : string) (w : World)
  : (Exn + Task) * World :=
  (match find_task tid w with
   | Some t => inr t
   | None => inl (NotFoundError "task")
   end, w).

Definition env_reads : @Collaborators World :=
  {| createTaskSchema_parse := parse_create;
     updateTaskSchema_parse := parse_update;
     taskIdSchema_parse := parse_id;
     projectIdSchema_parse := parse_id;
     workspaceIdSchema_parse := parse_id;
     RolePermissions := role_table;
     getMemberRoleInWorkspace_impl := member_role_read;
     createTaskService_impl := create;
     updateTaskService_impl := update;
     getAllTasksService_impl := get_all;
     getTaskByIdService_impl := get_by_id_read;
     deleteTaskService_impl := delete;
     UserModel_findById_impl := find_user;
     resend_emails_send_impl := send true;
     FRONTEND_ORIGIN := Some "app.example.org" |}.

(** A request that names its path parameters and query itself. *)
Definition request_with (user : string) (ps : list (string * string))
    (q : list (string * Js.QueryValue)) (raw : string) : Request :=
  {| headers := [("userid", user)]; params := ps; query := q; req_body := raw |}.

End Demo.

(** ** Proof steps *)

(** Unfold one controller down to the monad's operations. *)
Ltac unfold_run :=
  unfold mutating_controller, createTaskController, updateTaskController,
    getAllTasksController, getTaskByIdController, deleteTaskController,
    asyncHandler, createTask, updateTask, getAllTasks, getTaskById,
    deleteTask, notifyUser, getMemberRoleInWorkspace, createTaskService,
    updateTaskService, getAllTasksService, getTaskByIdService,
    deleteTaskService, UserModel_findById, resend_emails_send, console_log,
    console_error, res_status_json, roleGuard, userid_of, bind, try_catch,
    sync, await, emit, ret in *.

(** Chronological traces are built by appending; bring them to the form
    [trace s ++ [e1; ...; en]]. *)
Ltac tidy_trace := cbn; rewrite <- ?app_assoc; cbn.

(** Case analysis on the next collaborator call whose result the run
    inspects: the innermost scrutinee that is not itself a case
    analysis. *)
Ltac reduce :=
  cbv beta iota zeta;
  cbn [world trace fst snd userEmail subject message].

Ltac next_call :=
  match goal with
  | |- context [match ?x with _ => _ end] =>
      lazymatch x with
      | context [match _ with _ => _ end] => fail
      | _ => destruct x eqn:?
      end
  end;
  reduce.

Ltac all_calls := reduce; repeat next_call.

Open Scope list_scope.

Section Properties.

Context {World : Type}.
Variable env : @Collaborators World.

(** C1, amended: in each mutating controller (create, update, delete), a
    request that passes validation and whose caller's role, as resolved
    by [getMemberRoleInWorkspace], lacks the permission the controller
    requires ends in the guard's authorization error, handed to the error
    responder; the only call made is the role lookup, so the task service
    is not invoked and the world is as the lookup left it. *)
Theorem permission_checked_before_mutation
    (e : MutatingEndpoint) (req : Request) (s : State)
    (wid : string) (role : Role) (w1 : World) :
  passes_validation env e req wid ->
  getMemberRoleInWorkspace_impl env (userid_of req) wid (world s)
    = (inr role, w1) ->
  has_permissions env role [required_permission e] = false ->
  mutating_controller env e req s =
    (Forwarded (AuthorizationError "forbidden"),
     {| world := w1;
        trace := trace s ++ [EvGetMemberRoleInWorkspace (userid_of req) wid] |}).
Proof.
  intros Hvalid Hrole Hlacks.
  destruct e; cbn [passes_validation required_permission] in *.
  - destruct Hvalid as (body & pid & Hb & Hp & Hw).
    unfold_run. rewrite Hb, Hp, Hw, Hrole, Hlacks. reflexivity.
  - destruct Hvalid as (body & tid & pid & Hb & Ht & Hp & Hw).
    unfold_run. rewrite Hb, Ht, Hp, Hw, Hrole, Hlacks. reflexivity.
  - destruct Hvalid as (tid & Ht & Hw).
    unfold_run. rewrite Ht, Hw, Hrole, Hlacks. reflexivity.
Qed.

(** X4: the same order as an invariant, with no assumption on the
    request: whenever a run of a mutating controller calls a task
    service, the role lookup resolved a role that holds the required
    permission. *)
Lemma mutation_requires_permission
    (e : MutatingEndpoint) (req : Request) (s : State) :
  exists new,
    trace (snd (mutating_controller env e req s)) = trace s ++ new /\
    (existsb is_mutation new = true ->
     exists wid role w1,
       getMemberRoleInWorkspace_impl env (userid_of req) wid (world s)
         = (inr role, w1) /\
       has_permissions env role [required_permission e] = true).
Proof.
  destruct e; unfold_run; cbn [required_permission]; all_calls;
    rewrite <- ?app_assoc; cbn [app];
    try (exists []; rewrite app_nil_r; split;
         [reflexivity | cbn; discriminate]);
    eexists; (split; [reflexivity |]);
    cbn [existsb is_mutation orb]; intros Hm; try discriminate Hm;
    do 3 eexists; split; eassumption.
Qed.

(** C2: a create request that passes the schemas and the guard, whose
    task is created by the service, and whose [assignedTo] id the user
    model does not resolve, is answered 400 with the message
    "Assigned user not found."; by then the create service has run (its
    call precedes the lookup in the trace) and nothing undoes it: the
    world is the one the service produced, as the lookup left it. *)
Theorem create_unknown_assignee
    (req : Request) (s : State) (body : CreateTaskBody) (pid wid : string)
    (role : Role) (w1 : World) (task : Task) (w2 w3 : World) :
  create_parses env req body pid wid ->
  getMemberRoleInWorkspace_impl env (userid_of req) wid (world s)
    = (inr role, w1) ->
  has_permissions env role [CREATE_TASK] = true ->
  createTaskService_impl env wid pid (userid_of req) body w1 = (inr task, w2) ->
  UserModel_findById_impl env (assignedTo body) w2 = (inr None, w3) ->
  createTaskController env req s =
    (Responded
       {| res_status := 400;
          res_json := [("message", JString "Assigned user not found.")] |},
     {| world := w3;
        trace := trace s ++
          [EvGetMemberRoleInWorkspace (userid_of req) wid;
           EvCreateTaskService wid pid (userid_of req) body;
           EvFindById (assignedTo body)] |}).
Proof.
  intros (Hb & Hp & Hw) Hrole Hperm Hcreate Hfind.
  unfold_run. rewrite Hb, Hp, Hw, Hrole, Hperm. reduce.
  rewrite Hcreate. reduce. rewrite Hfind.
  tidy_trace. reflexivity.
Qed.

(** C3: a create request that passes the schemas and the guard, whose
    task is created and whose [assignedTo] id resolves to a user, is
    answered 200 with the created task and the success message, and the
    run attempts exactly one e-mail, to the assignee, with subject
    "Task Assigned: " followed by the task's title. *)
Theorem create_success_one_email
    (req : Request) (s : State) (body : CreateTaskBody) (pid wid : string)
    (role : Role) (w1 : World) (task : Task) (w2 : World)
    (assignedUser : User) (w3 : World) :
  create_parses env req body pid wid ->
  getMemberRoleInWorkspace_impl env (userid_of req) wid (world s)
    = (inr role, w1) ->
  has_permissions env role [CREATE_TASK] = true ->
  createTaskService_impl env wid pid (userid_of req) body w1 = (inr task, w2) ->
  UserModel_findById_impl env (assignedTo body) w2
    = (inr (Some assignedUser), w3) ->
  exists s' new,
    createTaskController env req s =
      (Responded
         {| res_status := 200;
            res_json :=
              [("message",
                JString "Task created successfully and notification sent.");
               ("task", JTask task)] |},
       s') /\
    trace s' = trace s ++ new /\
    sends new = [assignment_payload env assignedUser task wid pid] /\
    send_subject (assignment_payload env assignedUser task wid pid)
      = ("Task Assigned: " ++ title task)%string.
Proof.
  intros (Hb & Hp & Hw) Hrole Hperm Hcreate Hfind.
  unfold_run. rewrite Hb, Hp, Hw, Hrole, Hperm. reduce.
  rewrite Hcreate. reduce. rewrite Hfind. reduce.
  fold (assignment_payload env assignedUser task wid pid).
  destruct (resend_emails_send_impl env _ w3) as [[err | response] w4];
    tidy_trace; do 2 eexists; repeat split.
Qed.

(** C4: whatever the parameters and whatever the provider call does,
    [notifyUser] returns normally.  It makes one send; when the call
    rejects, the error is logged with [console.error] and goes no
    further, and when it resolves the response is logged with
    [console.log]. *)
Theorem notifyUser_never_rejects (p : EmailParams) (s : State) :
  let payload :=
    {| send_from := "no-reply@techriserwanda.org";
       send_to := userEmail p;
       send_subject := subject p;
       send_html := message p |} in
  let sent := resend_emails_send_impl env payload (world s) in
  notifyUser env p s =
    (Returned tt,
     {| world := snd sent;
        trace := trace s ++
          [EvResendSend payload;
           match fst sent with
           | inl error => EvConsoleError "Error sending email:" error
           | inr response => EvConsoleLog "Email sent successfully:" response
           end] |}).
Proof.
  intros payload sent. subst sent payload. unfold_run.
  destruct (resend_emails_send_impl env _ (world s)) as [[error | response] w];
    tidy_trace; reflexivity.
Qed.

(** C5: on a create request that has reached the notification (schemas
    and guard passed, task created, assignee found), a provider call that
    rejects changes nothing in the answer: the error is logged, and the
    response is the same 200 with the created task. *)
Theorem create_survives_email_failure
    (req : Request) (s : State) (body : CreateTaskBody) (pid wid : string)
    (role : Role) (w1 : World) (task : Task) (w2 : World)
    (assignedUser : User) (w3 : World) (error : Exn) (w4 : World) :
  create_parses env req body pid wid ->
  getMemberRoleInWorkspace_impl env (userid_of req) wid (world s)
    = (inr role, w1) ->
  has_permissions env role [CREATE_TASK] = true ->
  createTaskService_impl env wid pid (userid_of req) body w1 = (inr task, w2) ->
  UserModel_findById_impl env (assignedTo body) w2
    = (inr (Some assignedUser), w3) ->
  resend_emails_send_impl env
    (assignment_payload env assignedUser task wid pid) w3 = (inl error, w4) ->
  createTaskController env req s =
    (Responded (created_response task),
     {| world := w4;
        trace := trace s ++
          [EvGetMemberRoleInWorkspace (userid_of req) wid;
           EvCreateTaskService wid pid (userid_of req) body;
           EvFindById (assignedTo body);
           EvResendSend (assignment_payload env assignedUser task wid pid);
           EvConsoleError "Error sending email:" error] |}).
Proof.
  intros (Hb & Hp & Hw) Hrole Hperm Hcreate Hfind Hsend.
  unfold_run. rewrite Hb, Hp, Hw, Hrole, Hperm. reduce.
  rewrite Hcreate. reduce. rewrite Hfind. reduce.
  fold (assignment_payload env assignedUser task wid pid).
  rewrite Hsend. tidy_trace. reflexivity.
Qed.

(** X8: the answer of the create controller does not depend on the
    provider at all: two deployments that differ only in the provider client give
    the same answer to every request. *)
Lemma create_answer_ignores_provider
    (send' : SendPayload -> World -> (Exn + ProviderResponse) * World)
    (req : Request) (s : State) :
  let env' :=
    {| createTaskSchema_parse := createTaskSchema_parse env;
       updateTaskSchema_parse := updateTaskSchema_parse env;
       taskIdSchema_parse := taskIdSchema_parse env;
       projectIdSchema_parse := projectIdSchema_parse env;
       workspaceIdSchema_parse := workspaceIdSchema_parse env;
       RolePermissions := RolePermissions env;
       getMemberRoleInWorkspace_impl := getMemberRoleInWorkspace_impl env;
       createTaskService_impl := createTaskService_impl env;
       updateTaskService_impl := updateTaskService_impl env;
       getAllTasksService_impl := getAllTasksService_impl env;
       getTaskByIdService_impl := getTaskByIdService_impl env;
       deleteTaskService_impl := deleteTaskService_impl env;
       UserModel_findById_impl := UserModel_findById_impl env;
       resend_emails_send_impl := send';
       FRONTEND_ORIGIN := FRONTEND_ORIGIN env |} in
  fst (createTaskController env' req s) = fst (createTaskController env req s).
Proof.
  intros env'. subst env'. unfold_run. unfold has_permissions.
  cbn [createTaskSchema_parse projectIdSchema_parse workspaceIdSchema_parse
       RolePermissions getMemberRoleInWorkspace_impl createTaskService_impl
       UserModel_findById_impl resend_emails_send_impl FRONTEND_ORIGIN].
  destruct (createTaskSchema_parse env (req_body req)); reduce; [reflexivity |].
  destruct (projectIdSchema_parse env _); reduce; [reflexivity |].
  destruct (workspaceIdSchema_parse env _); reduce; [reflexivity |].
  destruct (getMemberRoleInWorkspace_impl env _ _ _) as [[? | role] w1];
    reduce; [reflexivity |].
  destruct (forallb _ _); reduce; [| reflexivity].
  destruct (createTaskService_impl env _ _ _ _ _) as [[? | task] w2];
    reduce; [reflexivity |].
  destruct (UserModel_findById_impl env _ _) as [[? | [user |]] w3];
    reduce; try reflexivity.
  destruct (send' _ w3) as [[? | ?] ?];
    destruct (resend_emails_send_impl env _ w3) as [[? | ?] ?];
    reflexivity.
Qed.

(** C9: every 200 response of the create controller carries the fixed
    message "Task created successfully and notification sent."; the
    statement holds for every deployment, so for a provider call that
    resolved as for one that rejected and was only logged. *)
Theorem create_message_fixed
    (req : Request) (s : State) (r : Response) (s' : State) :
  createTaskController env req s = (Responded r, s') ->
  res_status r = HTTPSTATUS.OK ->
  obj_get "message" (res_json r)
    = Some (JString "Task created successfully and notification sent.").
Proof.
  unfold_run. all_calls; intros Hrun Hstatus;
    inversion Hrun; subst; try reflexivity; discriminate Hstatus.
Qed.

(** C7: the update controller has no notification side effect.  On
    every request, whatever its fate, the events the run adds to the
    trace contain no send and no console output, that is, [notifyUser]
    and the provider are not called.  And a request that passes the
    schemas and the [EDIT_TASK] guard, and whose update the service
    performs, is answered 200 with the updated task, after exactly two
    calls: the role lookup and the update service. *)
Theorem update_no_notification (req : Request) (s : State) :
  (exists new,
     trace (snd (updateTaskController env req s)) = trace s ++ new /\
     filter is_notification new = []) /\
  (forall body tid pid wid role w1 updatedTask w2,
     update_parses env req body tid pid wid ->
     getMemberRoleInWorkspace_impl env (userid_of req) wid (world s)
       = (inr role, w1) ->
     has_permissions env role [EDIT_TASK] = true ->
     updateTaskService_impl env wid pid tid body w1 = (inr updatedTask, w2) ->
     updateTaskController env req s =
       (Responded
          {| res_status := 200;
             res_json := [("message", JString "Task updated successfully");
                          ("task", JTask updatedTask)] |},
        {| world := w2;
           trace := trace s ++
             [EvGetMemberRoleInWorkspace (userid_of req) wid;
              EvUpdateTaskService wid pid tid body] |})).
Proof.
  split.
  - unfold_run. all_calls; rewrite <- ?app_assoc; cbn [app];
      try (exists []; rewrite app_nil_r; split; reflexivity);
      eexists; split; reflexivity.
  - intros body tid pid wid role w1 updatedTask w2
      (Hb & Ht & Hp & Hw) Hrole Hperm Hupdate.
    unfold_run. rewrite Hb, Ht, Hp, Hw, Hrole, Hperm. reduce.
    rewrite Hupdate. tidy_trace. reflexivity.
Qed.

(** Every operation of the monad is oblivious of the trace, and so is
    every computation built from them. *)
Lemma oblivious_ret {A} (a : A) : oblivious (@ret World A a).
Proof. intros s1 s2 Hw. split; [reflexivity | exact Hw]. Qed.

Lemma oblivious_sync {A} (r : Exn + A) : oblivious (@sync World A r).
Proof.
  intros s1 s2 Hw. unfold sync. destruct r; split; cbn; auto.
Qed.

Lemma oblivious_emit (ev : Event) : oblivious (@emit World ev).
Proof. intros s1 s2 Hw. split; [reflexivity | exact Hw]. Qed.

Lemma oblivious_await {A} (ev : Event) (call : World -> (Exn + A) * World) :
  oblivious (await ev call).
Proof.
  intros s1 s2 Hw. unfold await. rewrite Hw.
  destruct (call (world s2)) as [[e | a] w]; split; reflexivity.
Qed.

Lemma oblivious_bind {A B} (m : @M World A) (k : A -> @M World B) :
  oblivious m -> (forall a, oblivious (k a)) -> oblivious (bind m k).
Proof.
  intros Hm Hk s1 s2 Hw. unfold bind.
  destruct (Hm s1 s2 Hw) as [Hfst Hsnd].
  destruct (m s1) as [[a1 | e1] t1], (m s2) as [[a2 | e2] t2];
    cbn [fst snd] in *; try discriminate.
  - inversion Hfst; subst. apply Hk. exact Hsnd.
  - inversion Hfst; subst. split; [reflexivity | exact Hsnd].
Qed.

Lemma oblivious_try_catch {A} (m : @M World A) (h : Exn -> @M World A) :
  oblivious m -> (forall e, oblivious (h e)) -> oblivious (try_catch m h).
Proof.
  intros Hm Hh s1 s2 Hw. unfold try_catch.
  destruct (Hm s1 s2 Hw) as [Hfst Hsnd].
  destruct (m s1) as [[a1 | e1] t1], (m s2) as [[a2 | e2] t2];
    cbn [fst snd] in *; try discriminate.
  - split; [exact Hfst | exact Hsnd].
  - inversion Hfst; subst. apply Hh. exact Hsnd.
Qed.

Lemma getTaskById_oblivious (req : Request) : oblivious (getTaskById env req).
Proof.
  unfold getTaskById, getMemberRoleInWorkspace, getTaskByIdService,
    res_status_json.
  repeat (apply oblivious_bind; [| intro]);
    auto using oblivious_sync, oblivious_await, oblivious_ret.
Qed.

Lemma getTaskById_reads (req1 req2 : Request) :
  same_read req1 req2 -> getTaskById env req1 = getTaskById env req2.
Proof.
  unfold same_read, userid_of, getTaskById.
  intros (Hu & Hi & Hp & Hw). rewrite Hu, Hi, Hp, Hw. reflexivity.
Qed.

(** With collaborators that only read, a run of the read-one controller
    leaves the world as it found it: the controller calls nothing else. *)
Lemma getTaskById_preserves_world (req : Request) (s : State) :
  read_only_collaborators env ->
  world (snd (getTaskById env req s)) = world s.
Proof.
  intros [Hrole Hread]. unfold_run.
  destruct (taskIdSchema_parse env _); reduce; [reflexivity |].
  destruct (projectIdSchema_parse env _); reduce; [reflexivity |].
  destruct (workspaceIdSchema_parse env _) as [| wid]; reduce; [reflexivity |].
  pose proof (Hrole (lookup "userid" (headers req)) wid (world s)) as Hw1.
  destruct (getMemberRoleInWorkspace_impl env _ wid (world s))
    as [[e | role] w1]; cbn [snd] in Hw1; subst w1; reduce; [reflexivity |].
  destruct (has_permissions env role [VIEW_ONLY]); reduce; [| reflexivity].
  match goal with
  | |- context [getTaskByIdService_impl env ?w ?p ?t (world s)] =>
      pose proof (Hread w p t (world s)) as Hw2;
      destruct (getTaskByIdService_impl env w p t (world s))
        as [[e | task] w2]
  end;
    cbn [snd] in Hw2; subst w2; reduce; reflexivity.
Qed.

(** With collaborators that only read, a response of the read-one
    controller carries the task the read service finds in the world the
    run started from, under the ids of the request. *)
Lemma getTaskById_response (req : Request) (s : State) (r : Response) :
  read_only_collaborators env ->
  fst (getTaskById env req s) = Returned r ->
  exists tid pid wid task,
    get_parses env req tid pid wid /\
    fst (getTaskByIdService_impl env wid pid tid (world s)) = inr task /\
    r = {| res_status := 200;
           res_json := [("message", JString "Task fetched successfully");
                        ("task", JTask task)] |}.
Proof.
  intros [Hrole Hread]. unfold get_parses. unfold_run.
  destruct (taskIdSchema_parse env _) as [| tid]; reduce; [discriminate |].
  destruct (projectIdSchema_parse env _) as [| pid]; reduce; [discriminate |].
  destruct (workspaceIdSchema_parse env _) as [| wid]; reduce; [discriminate |].
  pose proof (Hrole (lookup "userid" (headers req)) wid (world s)) as Hw1.
  destruct (getMemberRoleInWorkspace_impl env _ wid (world s))
    as [[e | role] w1]; cbn [snd] in Hw1; subst w1; reduce; [discriminate |].
  destruct (has_permissions env role [VIEW_ONLY]); reduce; [| discriminate].
  destruct (getTaskByIdService_impl env wid pid tid (world s))
    as [[e | task] w2] eqn:Hservice; reduce; [discriminate |].
  intros Hr. inversion Hr; subst; clear Hr.
  exists tid, pid, wid, task. rewrite Hservice. repeat split; reflexivity.
Qed.

(** C8: the read path is idempotent.  With a role lookup and a read
    service that only read, a [getTaskById] request leaves the store as
    it found it (the controller makes no other call), so that a second
    request for the same task issued after it meets the same state; if
    both requests are answered, the two responses are identical, task
    data included; and when the caller is the same as well, the second
    answer is the first one, response or error. *)
Theorem getTaskById_idempotent (req1 req2 : Request) (s : State) :
  read_only_collaborators env ->
  same_task req1 req2 ->
  world (snd (getTaskByIdController env req1 s)) = world s /\
  (forall r1 r2,
     fst (getTaskByIdController env req1 s) = Responded r1 ->
     fst (getTaskByIdController env req2
            (snd (getTaskByIdController env req1 s))) = Responded r2 ->
     r1 = r2) /\
  (userid_of req1 = userid_of req2 ->
   fst (getTaskByIdController env req2
          (snd (getTaskByIdController env req1 s)))
     = fst (getTaskByIdController env req1 s)).
Proof.
  intros Hread (Hi & Hp & Hw).
  pose proof (getTaskById_preserves_world req1 s Hread) as Hworld.
  unfold getTaskByIdController, asyncHandler.
  destruct (getTaskById env req1 s) as [a1 s1] eqn:Hrun1.
  assert (Hs1 : world s1 = world s) by (destruct a1; exact Hworld).
  assert (Hsnd : forall h, snd (match a1 with
                               | Returned r => (Responded r, s1)
                               | Threw e => (h e, s1)
                               end) = s1) by (intros h; destruct a1; reflexivity).
  rewrite (Hsnd Forwarded).
  split; [exact Hs1 | split].
  - intros r1 r2 H1 H2.
    destruct a1 as [r1' | e1]; [| discriminate].
    cbn [fst] in H1. inversion H1; subst r1'; clear H1.
    destruct (getTaskById env req2 s1) as [[r2' | e2] s2] eqn:Hrun2;
      [| discriminate].
    cbn [fst] in H2. inversion H2; subst r2'; clear H2.
    destruct (getTaskById_response req1 s r1 Hread)
      as (tid & pid & wid & task & (Ht & Hpp & Hww) & Hservice & ->);
      [rewrite Hrun1; reflexivity |].
    destruct (getTaskById_response req2 s1 r2 Hread)
      as (tid' & pid' & wid' & task' & (Ht' & Hpp' & Hww') & Hservice' & ->);
      [rewrite Hrun2; reflexivity |].
    rewrite <- Hi, Ht in Ht'. rewrite <- Hp, Hpp in Hpp'.
    rewrite <- Hw, Hww in Hww'.
    inversion Ht'; inversion Hpp'; inversion Hww'; subst.
    rewrite Hs1, Hservice in Hservice'. inversion Hservice'. reflexivity.
  - intros Hu.
    rewrite <- (getTaskById_reads req1 req2 (conj Hu (conj Hi (conj Hp Hw)))).
    destruct (getTaskById_oblivious req1 s1 s Hs1) as [Hfst _].
    rewrite Hrun1 in Hfst.
    destruct (getTaskById env req1 s1) as [[r2 | e2] s2];
      destruct a1; cbn [fst] in *; congruence.
Qed.

(** Asked twice in a row, a read that leaves the world as it found it
    answers the second time as it did the first. *)
Lemma getTaskById_twice (req : Request) (s : State) :
  world (snd (getTaskByIdController env req s)) = world s ->
  fst (getTaskByIdController env req (snd (getTaskByIdController env req s)))
    = fst (getTaskByIdController env req s).
Proof.
  intros Hsame. unfold getTaskByIdController, asyncHandler in *.
  destruct (getTaskById_oblivious req
              (snd (let (o, s') := getTaskById env req s in
                    match o with
                    | Returned r => (Responded r, s')
                    | Threw e => (Forwarded e, s')
                    end)) s Hsame) as [Hfst _].
  destruct (getTaskById env req s) as [[r | e] t] eqn:Hrun;
    cbn [snd fst] in *;
    destruct (getTaskById env req t) as [[r' | e'] t'];
    cbn [fst] in *; congruence.
Qed.


(** A list parameter that is no string stops the listing controller
    there: the error of the failed [split] is handed to the error
    responder before the role is looked up. *)
Lemma getAllTasks_filters_failure
    (req : Request) (s : State) (wid : string) (e : Exn) :
  workspaceIdSchema_parse env (lookup "workspaceId" (params req)) = inr wid ->
  build_filters (query req) = inl e ->
  getAllTasksController env req s = (Forwarded e, s).
Proof.
  intros Hw Hfilters. unfold_run. rewrite Hw, Hfilters. reflexivity.
Qed.

End Properties.

(** ** The listing query *)

Lemma split_if_truthy_absent : split_if_truthy None = inr None.
Proof. reflexivity. Qed.

Lemma split_if_truthy_nonempty (s : string) :
  s <> "" -> split_if_truthy (Some (Js.QString s)) = inr (Some (Js.split "," s)).
Proof.
  intros Hs. unfold split_if_truthy, Js.truthy.
  destruct (String.eqb_spec s ""); [contradiction | reflexivity].
Qed.

Lemma split_if_truthy_not_a_string (v : option Js.QueryValue) :
  not_a_string v -> split_if_truthy v = inl TypeError.
Proof.
  destruct v as [[str | items | fields] |]; cbn; intros H;
    try contradiction; reflexivity.
Qed.

Lemma split_if_truthy_error (v : option Js.QueryValue) (e : Exn) :
  split_if_truthy v = inl e -> e = TypeError /\ not_a_string v.
Proof.
  destruct v as [[str | items | fields] |];
    unfold split_if_truthy, Js.truthy, not_a_string.
  - destruct (str =? "")%string; cbn; discriminate.
  - cbn. intros H. inversion H. split; [reflexivity | exact I].
  - cbn. intros H. inversion H. split; [reflexivity | exact I].
  - cbn. discriminate.
Qed.

Lemma list_field_build
    (f : ListParam) (q : list (string * Js.QueryValue)) (filters : Filters) :
  build_filters q = inr filters ->
  split_if_truthy (lookup (list_key f) q) = inr (list_field f filters).
Proof.
  unfold build_filters.
  destruct (split_if_truthy (lookup "status" q)) eqn:Hs; [discriminate |].
  destruct (split_if_truthy (lookup "priority" q)) eqn:Hp; [discriminate |].
  destruct (split_if_truthy (lookup "assignedTo" q)) eqn:Ha; [discriminate |].
  intros H. inversion H; subst; clear H.
  destruct f; cbn [list_key list_field status priority filter_assignedTo];
    assumption.
Qed.

Lemma build_filters_not_a_string
    (f : ListParam) (q : list (string * Js.QueryValue)) :
  not_a_string (lookup (list_key f) q) -> build_filters q = inl TypeError.
Proof.
  intros Hf. apply split_if_truthy_not_a_string in Hf.
  unfold build_filters.
  destruct (split_if_truthy (lookup "status" q)) eqn:Hs.
  { apply split_if_truthy_error in Hs. destruct Hs as [-> _]. reflexivity. }
  destruct (split_if_truthy (lookup "priority" q)) eqn:Hp.
  { apply split_if_truthy_error in Hp. destruct Hp as [-> _]. reflexivity. }
  destruct (split_if_truthy (lookup "assignedTo" q)) eqn:Ha.
  { apply split_if_truthy_error in Ha. destruct Ha as [-> _]. reflexivity. }
  destruct f; cbn [list_key] in Hf; congruence.
Qed.

Lemma build_filters_strings (q : list (string * Js.QueryValue)) :
  (forall f, ~ not_a_string (lookup (list_key f) q)) ->
  exists filters, build_filters q = inr filters.
Proof.
  intros Hall. unfold build_filters.
  destruct (split_if_truthy (lookup "status" q)) eqn:Hs.
  { apply split_if_truthy_error in Hs. destruct Hs as [_ Hs].
    destruct (Hall StatusParam Hs). }
  destruct (split_if_truthy (lookup "priority" q)) eqn:Hp.
  { apply split_if_truthy_error in Hp. destruct Hp as [_ Hp].
    destruct (Hall PriorityParam Hp). }
  destruct (split_if_truthy (lookup "assignedTo" q)) eqn:Ha.
  { apply split_if_truthy_error in Ha. destruct Ha as [_ Ha].
    destruct (Hall AssignedToParam Ha). }
  eexists. reflexivity.
Qed.

Lemma page_field_build (f : PageParam) (q : list (string * Js.QueryValue)) :
  page_field f (build_pagination q)
    = Js.or (Js.parseInt (Js.ToString (lookup (page_key f) q)))
        (Js.Int (page_default f)).
Proof. destruct f; reflexivity. Qed.

(** C6, as stated, fails twice.  On a parameter that is present and
    empty: for the query [status=] the filter's status is undefined,
    where splitting the parameter on commas gives the one-element list of
    the empty string.  And on a parameter that is no string: for the
    query [status=a&status=b] the parameter is an array, the call of
    [split] throws, and no filter object is built. *)
Lemma empty_status_is_not_split :
  built_status (build_filters [("status", Js.QString "")])
    <> inr (spec_list_param (Some "")) /\
  build_filters
    [("status", Js.QArray [Js.QString "a"; Js.QString "b"])] = inl TypeError.
Proof. split; [cbn; discriminate | reflexivity]. Qed.

(** C6, amended: on every list request, each of status, priority and
    assignedTo is undefined in the filter object when the parameter is
    absent or the empty string, and is the parameter split on commas when
    it is a non-empty string; when one of them is an array or an object
    (a repeated or bracketed key) no filter object is built: the call of
    [split] throws a TypeError, which a request with a valid workspace id
    sees handed to the error responder before any call; in every other
    case a filter object is built.  pageSize and pageNumber are 10 and 1
    when the parameter is omitted; and the query
    [status=a,b&priority=x&pageSize=5&pageNumber=2] gives status
    ["a","b"], priority ["x"] and pagination 5 and 2. *)
Theorem listing_filters_and_pagination
    {World : Type} (env : @Collaborators World) (req : Request) (s : State) :
  (forall f filters,
     build_filters (query req) = inr filters ->
     lookup (list_key f) (query req) = None \/
     lookup (list_key f) (query req) = Some (Js.QString "") ->
     list_field f filters = None) /\
  (forall f filters str,
     build_filters (query req) = inr filters ->
     lookup (list_key f) (query req) = Some (Js.QString str) -> str <> "" ->
     list_field f filters = Some (Js.split "," str)) /\
  (forall f,
     not_a_string (lookup (list_key f) (query req)) ->
     build_filters (query req) = inl TypeError /\
     forall wid,
       workspaceIdSchema_parse env (lookup "workspaceId" (params req))
         = inr wid ->
       getAllTasksController env req s = (Forwarded TypeError, s)) /\
  ((forall f, ~ not_a_string (lookup (list_key f) (query req))) ->
   exists filters, build_filters (query req) = inr filters) /\
  (forall f,
     lookup (page_key f) (query req) = None ->
     page_field f (build_pagination (query req)) = Js.Int (page_default f)) /\
  build_filters example_query
    = inr {| projectId := None;
             status := Some ["a"; "b"];
             priority := Some ["x"];
             filter_assignedTo := None;
             keyword := None;
             dueDate := None |} /\
  build_pagination example_query
    = {| pageSize := Js.Int 5; pageNumber := Js.Int 2 |}.
Proof.
  split; [| split; [| split; [| split; [| split; [| split]]]]].
  - intros f filters Hb H.
    pose proof (list_field_build f _ _ Hb) as Hf.
    destruct H as [H | H]; rewrite H in Hf; cbn in Hf; congruence.
  - intros f filters str Hb H Hs.
    pose proof (list_field_build f _ _ Hb) as Hf.
    rewrite H, (split_if_truthy_nonempty str Hs) in Hf. congruence.
  - intros f Hf.
    pose proof (build_filters_not_a_string f _ Hf) as Hb.
    split; [exact Hb |].
    intros wid Hw. unfold_run. rewrite Hw, Hb. reflexivity.
  - apply build_filters_strings.
  - intros f H. rewrite page_field_build, H. destruct f; reflexivity.
  - reflexivity.
  - reflexivity.
Qed.



(** ** The primitives on sample inputs *)

Example parseInt_5 : Js.parseInt "5" = Js.Int 5.
Proof. reflexivity. Qed.

Example parseInt_undefined : Js.parseInt (Js.ToString None) = Js.NaN.
Proof. reflexivity. Qed.

Example parseInt_12px : Js.parseInt "  -12px" = Js.Int (-12).
Proof. reflexivity. Qed.

Example parseInt_hex : Js.parseInt "0x1F" = Js.Int 31.
Proof. reflexivity. Qed.

Example split_ab : Js.split "," "a,b" = ["a"; "b"].
Proof. reflexivity. Qed.

Example split_empty : Js.split "," "" = [""].
Proof. reflexivity. Qed.

Example split_gaps : Js.split "," "a,,b," = ["a"; ""; "b"; ""].
Proof. reflexivity. Qed.

Example F_tie_to_even_down :
  Js.F 9007199254740993 = Js.Int 9007199254740992.
Proof. reflexivity. Qed.

Example F_tie_to_even_up :
  Js.F 9007199254740995 = Js.Int 9007199254740996.
Proof. reflexivity. Qed.

Example F_10_23 : Js.F (10 ^ 23) = Js.Int 99999999999999991611392.
Proof. reflexivity. Qed.

Example F_largest_double :
  Js.F (2 ^ 1024 - 2 ^ 970 - 1) = Js.Int (2 ^ 1024 - 2 ^ 971).
Proof. vm_compute. reflexivity. Qed.

Example F_overflow :
  Js.F (2 ^ 1024 - 2 ^ 970) = Js.Infinity false /\
  Js.F (- 2 ^ 1024) = Js.Infinity true.
Proof. split; vm_compute; reflexivity. Qed.

Example parseInt_rounds :
  Js.parseInt "9007199254740993" = Js.Int 9007199254740992.
Proof. reflexivity. Qed.

Example ToString_array :
  Js.ToString (Some (Js.QArray [Js.QString "5"; Js.QString "6"])) = "5,6".
Proof. reflexivity. Qed.

Example pagination_of_repeated_key :
  build_pagination [("pageSize", Js.QArray [Js.QString "5"; Js.QString "6"])]
    = {| pageSize := Js.Int 5; pageNumber := Js.Int 1 |}.
Proof. reflexivity. Qed.

Example pagination_of_bracketed_key :
  build_pagination [("pageSize", Js.QObject [("a", Js.QString "5")])]
    = {| pageSize := Js.Int 10; pageNumber := Js.Int 1 |}.
Proof. reflexivity. Qed.

Example filters_of_repeated_key :
  build_filters [("priority", Js.QArray [Js.QString "a"; Js.QString "b"])]
    = inl TypeError.
Proof. reflexivity. Qed.

Example spread_puts_indices_first :
  obj_spread [("message", JString "m")]
    [("tasks", JTasks []); ("10", JOpaque "x"); ("2", JOpaque "y");
     ("message", JString "n")]
    = [("2", JOpaque "y"); ("10", JOpaque "x");
       ("message", JString "n"); ("tasks", JTasks [])].
Proof. reflexivity. Qed.


(** ** The theorems at work on the concrete deployment *)

(** C1, as stated, fails on a request that does not pass validation: a
    create request with a body the schema rejects, from a caller whose
    role lacks [CREATE_TASK], ends in the validation error, not in an
    authorization failure; the schemas are applied before the role is
    looked up. *)
Lemma invalid_request_gets_validation_error :
  workspaceIdSchema_parse (Demo.env true)
    (lookup "workspaceId" (params (Demo.request "carol" ""))) = inr "w1"%string /\
  getMemberRoleInWorkspace_impl (Demo.env true)
    (userid_of (Demo.request "carol" "")) "w1" (world Demo.start)
    = (inr "VIEWER"%string, Demo.empty) /\
  has_permissions (Demo.env true) "VIEWER" [CREATE_TASK] = false /\
  createTaskController (Demo.env true) (Demo.request "carol" "") Demo.start
    = (Forwarded (ValidationError "body"), Demo.start) /\
  (forall detail s',
     createTaskController (Demo.env true) (Demo.request "carol" "") Demo.start
       <> (Forwarded (AuthorizationError detail), s')).
Proof.
  repeat split. intros detail s' H. discriminate H.
Qed.

Lemma permission_checked_before_mutation_witness :
  deleteTaskController (Demo.env true) (Demo.request "bob" "") Demo.with_task =
    (Forwarded (AuthorizationError "forbidden"),
     {| world := world Demo.with_task;
        trace := trace Demo.with_task ++
                 [EvGetMemberRoleInWorkspace (Some "bob") "w1"] |}).
Proof.
  apply (permission_checked_before_mutation (Demo.env true) DeleteTaskEndpoint
           (Demo.request "bob" "") Demo.with_task "w1" "MEMBER"
           (world Demo.with_task)).
  - exists "t1". split; reflexivity.
  - reflexivity.
  - reflexivity.
Defined.

Lemma create_unknown_assignee_witness :
  createTaskController (Demo.env true)
    (Demo.request "alice" "Write report,u9") Demo.start =
    (Responded
       {| res_status := 400;
          res_json := [("message", JString "Assigned user not found.")] |},
     {| world := Demo.stored (Demo.report_task "u9");
        trace :=
          [EvGetMemberRoleInWorkspace (Some "alice") "w1";
           EvCreateTaskService "w1" "p1" (Some "alice") (Demo.report_body "u9");
           EvFindById (Some "u9")] |}).
Proof.
  apply (create_unknown_assignee (Demo.env true)
           (Demo.request "alice" "Write report,u9") Demo.start
           (Demo.report_body "u9") "p1" "w1" "OWNER" Demo.empty
           (Demo.report_task "u9") (Demo.stored (Demo.report_task "u9"))
           (Demo.stored (Demo.report_task "u9"))).
  - repeat split; reflexivity.
  - reflexivity.
  - reflexivity.
  - reflexivity.
  - reflexivity.
Defined.

Lemma create_success_one_email_witness :
  exists s' new,
    createTaskController (Demo.env true)
      (Demo.request "alice" "Write report,u1") Demo.start =
      (Responded
         {| res_status := 200;
            res_json :=
              [("message",
                JString "Task created successfully and notification sent.");
               ("task", JTask (Demo.report_task "u1"))] |},
       s') /\
    trace s' = trace Demo.start ++ new /\
    sends new =
      [assignment_payload (Demo.env true) Demo.ada (Demo.report_task "u1")
         "w1" "p1"] /\
    send_subject
      (assignment_payload (Demo.env true) Demo.ada (Demo.report_task "u1")
         "w1" "p1")
      = "Task Assigned: Write report"%string.
Proof.
  apply (create_success_one_email (Demo.env true)
           (Demo.request "alice" "Write report,u1") Demo.start
           (Demo.report_body "u1") "p1" "w1" "OWNER" Demo.empty
           (Demo.report_task "u1") (Demo.stored (Demo.report_task "u1"))
           Demo.ada (Demo.stored (Demo.report_task "u1"))).
  - repeat split; reflexivity.
  - reflexivity.
  - reflexivity.
  - reflexivity.
  - reflexivity.
Defined.

Lemma create_survives_email_failure_witness :
  createTaskController (Demo.env false)
    (Demo.request "alice" "Write report,u1") Demo.start =
    (Responded (created_response (Demo.report_task "u1")),
     {| world := Demo.stored (Demo.report_task "u1");
        trace :=
          [EvGetMemberRoleInWorkspace (Some "alice") "w1";
           EvCreateTaskService "w1" "p1" (Some "alice") (Demo.report_body "u1");
           EvFindById (Some "u1");
           EvResendSend
             (assignment_payload (Demo.env false) Demo.ada
                (Demo.report_task "u1") "w1" "p1");
           EvConsoleError "Error sending email:"
             (ProviderError "provider unavailable")] |}).
Proof.
  apply (create_survives_email_failure (Demo.env false)
           (Demo.request "alice" "Write report,u1") Demo.start
           (Demo.report_body "u1") "p1" "w1" "OWNER" Demo.empty
           (Demo.report_task "u1") (Demo.stored (Demo.report_task "u1"))
           Demo.ada (Demo.stored (Demo.report_task "u1"))
           (ProviderError "provider unavailable")
           (Demo.stored (Demo.report_task "u1"))).
  - repeat split; reflexivity.
  - reflexivity.
  - reflexivity.
  - reflexivity.
  - reflexivity.
  - reflexivity.
Defined.

Lemma create_message_fixed_witness :
  obj_get "message"
    (res_json (created_response (Demo.report_task "u1")))
  = Some (JString "Task created successfully and notification sent.").
Proof.
  apply (create_message_fixed (Demo.env false)
           (Demo.request "alice" "Write report,u1") Demo.start
           (created_response (Demo.report_task "u1"))
           (snd (createTaskController (Demo.env false)
                   (Demo.request "alice" "Write report,u1") Demo.start))).
  - reflexivity.
  - reflexivity.
Defined.

Lemma update_no_notification_witness :
  updateTaskController (Demo.env true) (Demo.request "bob" "New title")
    Demo.with_task =
    (Responded
       {| res_status := 200;
          res_json :=
            [("message", JString "Task updated successfully");
             ("task", JTask (Demo.retitle (Demo.report_task "u1") "New title"))] |},
     {| world :=
          {| Demo.tasks := [Demo.retitle (Demo.report_task "u1") "New title"];
             Demo.outbox := Demo.outbox (world Demo.with_task) |};
        trace := trace Demo.with_task ++
          [EvGetMemberRoleInWorkspace (Some "bob") "w1";
           EvUpdateTaskService "w1" "p1" "t1" Demo.new_title] |}).
Proof.
  apply (proj2 (update_no_notification (Demo.env true)
                  (Demo.request "bob" "New title") Demo.with_task)
           Demo.new_title "t1" "p1" "w1" "MEMBER" (world Demo.with_task)).
  - repeat split; reflexivity.
  - reflexivity.
  - reflexivity.
  - reflexivity.
Defined.

Lemma getTaskById_idempotent_witness :
  world (snd (getTaskByIdController Demo.env_reads (Demo.request "carol" "")
                Demo.with_task))
    = world Demo.with_task /\
  (forall r1 r2,
     fst (getTaskByIdController Demo.env_reads (Demo.request "carol" "")
            Demo.with_task) = Responded r1 ->
     fst (getTaskByIdController Demo.env_reads
            (Demo.request "alice" "ignored")
            (snd (getTaskByIdController Demo.env_reads
                    (Demo.request "carol" "") Demo.with_task)))
       = Responded r2 ->
     r1 = r2) /\
  (userid_of (Demo.request "carol" "")
     = userid_of (Demo.request "alice" "ignored") ->
   fst (getTaskByIdController Demo.env_reads (Demo.request "alice" "ignored")
          (snd (getTaskByIdController Demo.env_reads
                  (Demo.request "carol" "") Demo.with_task)))
   = fst (getTaskByIdController Demo.env_reads (Demo.request "carol" "")
            Demo.with_task)).
Proof.
  apply (getTaskById_idempotent Demo.env_reads
           (Demo.request "carol" "") (Demo.request "alice" "ignored")
           Demo.with_task).
  - split; intros; reflexivity.
  - repeat split; reflexivity.
Defined.

Lemma listing_filters_and_pagination_witness :
  (forall filters,
     build_filters [("status", Js.QString "a,,b")] = inr filters ->
     list_field StatusParam filters = Some ["a"; ""; "b"]%string /\
     list_field PriorityParam filters = None) /\
  getAllTasksController (Demo.env true)
    (Demo.request_with "carol" [("workspaceId", "w1")]
       [("status", Js.QArray [Js.QString "a"; Js.QString "b"])] "")
    Demo.start
  = (Forwarded TypeError, Demo.start) /\
  page_field PageSize (build_pagination [("status", Js.QString "a,,b")])
    = Js.Int 10.
Proof.
  split; [| split].
  - intros filters Hb.
    destruct (listing_filters_and_pagination (Demo.env true)
                (Demo.request_with "carol" [("workspaceId", "w1")]
                   [("status", Js.QString "a,,b")] "") Demo.start)
      as (Hnone & Hsplit & _).
    split.
    + apply (Hsplit StatusParam filters "a,,b"%string);
        [exact Hb | reflexivity | discriminate].
    + apply (Hnone PriorityParam filters); [exact Hb | left; reflexivity].
  - destruct (listing_filters_and_pagination (Demo.env true)
                (Demo.request_with "carol" [("workspaceId", "w1")]
                   [("status", Js.QArray [Js.QString "a"; Js.QString "b"])] "")
                Demo.start)
      as (_ & _ & Harray & _).
    destruct (Harray StatusParam I) as [_ Hrun].
    apply (Hrun "w1"%string). reflexivity.
  - destruct (listing_filters_and_pagination (Demo.env true)
                (Demo.request_with "carol" [("workspaceId", "w1")]
                   [("status", Js.QString "a,,b")] "") Demo.start)
      as (_ & _ & _ & _ & Hpage & _).
    apply (Hpage PageSize). reflexivity.
Defined.


(** ** Further properties of the controllers *)

(** Reading a property back from an object after a write. *)
Lemma obj_get_replace_same (k : string) (v : JsonValue) (o : JsonObject) :
  obj_get k o <> None -> obj_get k (obj_replace k v o) = Some v.
Proof.
  induction o as [| [k' v'] rest IH]; cbn; [congruence |].
  destruct (String.eqb_spec k' k) as [-> | Hne]; cbn.
  - rewrite String.eqb_refl. reflexivity.
  - destruct (String.eqb_spec k' k); [contradiction | exact IH].
Qed.

Lemma obj_get_replace_other (k k0 : string) (v : JsonValue) (o : JsonObject) :
  k0 <> k -> obj_get k0 (obj_replace k v o) = obj_get k0 o.
Proof.
  intros Hne. induction o as [| [k' v'] rest IH]; cbn; [reflexivity |].
  destruct (String.eqb_spec k' k) as [-> | Hk]; cbn.
  - destruct (String.eqb_spec k k0); [congruence | reflexivity].
  - destruct (String.eqb_spec k' k0); [reflexivity | exact IH].
Qed.

Lemma obj_get_insert_same (k : string) (v : JsonValue) (o : JsonObject) :
  obj_get k o = None -> obj_get k (obj_insert k v o) = Some v.
Proof.
  induction o as [| [k' v'] rest IH]; cbn.
  - rewrite String.eqb_refl. reflexivity.
  - destruct (String.eqb_spec k' k) as [-> | Hne]; [discriminate |].
    intros Hnone. destruct (comes_before (array_index k) k'); cbn.
    + rewrite String.eqb_refl. reflexivity.
    + destruct (String.eqb_spec k' k); [contradiction | exact (IH Hnone)].
Qed.

Lemma obj_get_insert_other (k k0 : string) (v : JsonValue) (o : JsonObject) :
  k0 <> k -> obj_get k0 (obj_insert k v o) = obj_get k0 o.
Proof.
  intros Hne. induction o as [| [k' v'] rest IH]; cbn.
  - destruct (String.eqb_spec k k0); [congruence | reflexivity].
  - destruct (comes_before (array_index k) k'); cbn.
    + destruct (String.eqb_spec k k0); [congruence | reflexivity].
    + destruct (String.eqb_spec k' k0); [reflexivity | exact IH].
Qed.

Lemma obj_get_set_same (k : string) (v : JsonValue) (o : JsonObject) :
  obj_get k (obj_set k v o) = Some v.
Proof.
  unfold obj_set. destruct (obj_get k o) eqn:Hget.
  - apply obj_get_replace_same. congruence.
  - apply obj_get_insert_same. exact Hget.
Qed.

Lemma obj_get_set_other (k k0 : string) (v : JsonValue) (o : JsonObject) :
  k0 <> k -> obj_get k0 (obj_set k v o) = obj_get k0 o.
Proof.
  intros Hne. unfold obj_set. destruct (obj_get k o).
  - apply obj_get_replace_other. exact Hne.
  - apply obj_get_insert_other. exact Hne.
Qed.

Lemma obj_get_app (k : string) (o1 o2 : JsonObject) :
  obj_get k (o1 ++ o2)
    = match obj_get k o1 with
      | Some v => Some v
      | None => obj_get k o2
      end.
Proof.
  induction o1 as [| [k' v'] rest IH]; cbn; [reflexivity |].
  destruct (k' =? k)%string; [reflexivity | exact IH].
Qed.

(** In [{ ...o, ...src }] a key takes its value from [src], the last
    entry winning, and from [o] only when [src] has none. *)
Lemma obj_get_spread (k : string) (o src : JsonObject) :
  obj_get k (obj_spread o src)
    = match obj_get k (rev src) with
      | Some v => Some v
      | None => obj_get k o
      end.
Proof.
  unfold obj_spread. revert o.
  induction src as [| [k' v'] rest IH]; intros o; cbn [fold_left rev fst snd].
  - reflexivity.
  - rewrite IH, obj_get_app. cbn [obj_get].
    destruct (obj_get k (rev rest)); [reflexivity |].
    destruct (String.eqb_spec k' k) as [-> | Hne].
    + apply obj_get_set_same.
    + apply obj_get_set_other. congruence.
Qed.

(** [split] and joining with the separator. *)
Lemma split_nonempty (c : ascii) (s : string) : Js.split c s <> [].
Proof.
  destruct s as [| c' rest]; cbn; [discriminate |].
  destruct (Ascii.eqb c' c); [discriminate |].
  destruct (Js.split c rest); discriminate.
Qed.

Lemma concat_split (c : ascii) (s : string) :
  String.concat (String c EmptyString) (Js.split c s) = s.
Proof.
  induction s as [| c' rest IH]; [reflexivity |].
  cbn [Js.split].
  destruct (Ascii.eqb_spec c' c) as [-> | Hne].
  - pose proof (split_nonempty c rest) as Hn.
    destruct (Js.split c rest) as [| piece pieces]; [contradiction |].
    transitivity (String c (String.concat (String c EmptyString) (piece :: pieces)));
      [reflexivity | rewrite IH; reflexivity].
  - pose proof (split_nonempty c rest) as Hn.
    destruct (Js.split c rest) as [| piece pieces]; [contradiction |].
    transitivity (String c' (String.concat (String c EmptyString) (piece :: pieces)));
      [destruct pieces; reflexivity | rewrite IH; reflexivity].
Qed.

Lemma split_pieces_clean (c : ascii) (s : string) :
  Forall (fun piece => has_char c piece = false) (Js.split c s).
Proof.
  induction s as [| c' rest IH]; cbn [Js.split].
  - constructor; [reflexivity | constructor].
  - destruct (Ascii.eqb c' c) eqn:Hc.
    + constructor; [reflexivity | exact IH].
    + destruct (Js.split c rest) as [| piece pieces].
      * constructor; [cbn; rewrite Hc; reflexivity | constructor].
      * inversion IH; subst. constructor; [| assumption].
        cbn. rewrite Hc. assumption.
Qed.

Section Coverage.

Context {World : Type}.
Variable env : @Collaborators World.

(** X1: on every endpoint, a request either passes all the schemas of
    its controller or is turned away before anything is called: the run
    ends in an error handed to the error responder and leaves the world
    and the trace as they were. *)
Theorem unvalidated_request_makes_no_call
    (ep : Endpoint) (req : Request) (s : State) :
  (exists wid, validated env ep req wid) \/
  (exists e, controller env ep req s = (Forwarded e, s)).
Proof.
  destruct ep; cbn [validated controller];
    unfold create_parses, update_parses, get_parses, delete_parses;
    unfold_run;
    repeat match goal with
      | |- context [match ?f env ?x with _ => _ end] =>
          destruct (f env x) eqn:?; reduce;
          [right; eexists; reflexivity |]
      end;
    left; eauto 10.
Qed.



(** X5: when the create service rejects, the create controller stops
    there: the service's error is handed to the error responder, the
    assignee is not looked up and no e-mail is attempted. *)
Theorem create_service_failure_stops_run
    (req : Request) (s : State) (body : CreateTaskBody) (pid wid : string)
    (role : Role) (w1 : World) (e : Exn) (w2 : World) :
  create_parses env req body pid wid ->
  getMemberRoleInWorkspace_impl env (userid_of req) wid (world s)
    = (inr role, w1) ->
  has_permissions env role [CREATE_TASK] = true ->
  createTaskService_impl env wid pid (userid_of req) body w1 = (inl e, w2) ->
  createTaskController env req s =
    (Forwarded e,
     {| world := w2;
        trace := trace s ++
          [EvGetMemberRoleInWorkspace (userid_of req) wid;
           EvCreateTaskService wid pid (userid_of req) body] |}).
Proof.
  intros (Hb & Hp & Hw) Hrole Hperm Hcreate.
  unfold_run. rewrite Hb, Hp, Hw, Hrole, Hperm. reduce.
  rewrite Hcreate. tidy_trace. reflexivity.
Qed.

(** X6: when the lookup of the assignee itself rejects (as opposed to
    finding nobody), its error is handed to the error responder and no
    e-mail is attempted; the task the service created before stays
    created, the world being the one the service produced as the lookup
    left it. *)
Theorem assignee_lookup_failure_keeps_task
    (req : Request) (s : State) (body : CreateTaskBody) (pid wid : string)
    (role : Role) (w1 : World) (task : Task) (w2 : World)
    (e : Exn) (w3 : World) :
  create_parses env req body pid wid ->
  getMemberRoleInWorkspace_impl env (userid_of req) wid (world s)
    = (inr role, w1) ->
  has_permissions env role [CREATE_TASK] = true ->
  createTaskService_impl env wid pid (userid_of req) body w1 = (inr task, w2) ->
  UserModel_findById_impl env (assignedTo body) w2 = (inl e, w3) ->
  createTaskController env req s =
    (Forwarded e,
     {| world := w3;
        trace := trace s ++
          [EvGetMemberRoleInWorkspace (userid_of req) wid;
           EvCreateTaskService wid pid (userid_of req) body;
           EvFindById (assignedTo body)] |}).
Proof.
  intros (Hb & Hp & Hw) Hrole Hperm Hcreate Hfind.
  unfold_run. rewrite Hb, Hp, Hw, Hrole, Hperm. reduce.
  rewrite Hcreate. reduce. rewrite Hfind. tidy_trace. reflexivity.
Qed.

(** X7: on every create request the run attempts at most one e-mail, and
    it attempts one exactly when it answers 200 with a created task.  A
    run without an e-mail ends in an error handed on, or in the 400
    answer "Assigned user not found.". *)
Theorem create_mail_iff_success (req : Request) (s : State) :
  exists new,
    trace (snd (createTaskController env req s)) = trace s ++ new /\
    ((sends new = [] /\
      forall r, fst (createTaskController env req s) = Responded r ->
                r = assignee_not_found_response) \/
     (exists payload task,
        sends new = [payload] /\
        fst (createTaskController env req s)
          = Responded (created_response task))).
Proof.
  unfold_run. all_calls; rewrite <- ?app_assoc; cbn [app];
    try (exists []; rewrite app_nil_r; split; [reflexivity | left];
         split; [reflexivity | intros answer Hr; discriminate Hr]);
    eexists; (split; [reflexivity |]); cbn [sends];
    first
      [ left; split; [reflexivity |];
        intros answer Hr;
        first [discriminate Hr | inversion Hr; subst; reflexivity]
      | right; do 2 eexists; split; reflexivity ].
Qed.

(** X9: the [catch] the create controller puts around [notifyUser] never
    runs: [notifyUser] handles the provider's rejection itself, so
    wrapping it in any handler changes nothing.  A failed send is
    therefore logged once, by the helper. *)
Theorem notify_catch_is_dead
    (p : EmailParams) (h : Exn -> M unit) (s : State) :
  try_catch (notifyUser env p) h s = notifyUser env p s.
Proof.
  unfold try_catch at 1.
  unfold notifyUser, try_catch, bind, resend_emails_send, await, console_log,
    console_error, emit.
  destruct (resend_emails_send_impl env _ (world s)) as [[e | r] w];
    reflexivity.
Qed.

(** X10: on a valid delete request from a caller whose role holds
    [DELETE_TASK], the answer follows the delete service: 200 with the
    one-field body "Task deleted successfully" when it resolves, its
    error handed on when it rejects; either way the calls are the role
    lookup and the delete service, with the workspace and task ids. *)
Theorem delete_outcome
    (req : Request) (s : State) (tid wid : string) (role : Role) (w1 : World)
    (result : Exn + unit) (w2 : World) :
  delete_parses env req tid wid ->
  getMemberRoleInWorkspace_impl env (userid_of req) wid (world s)
    = (inr role, w1) ->
  has_permissions env role [DELETE_TASK] = true ->
  deleteTaskService_impl env wid tid w1 = (result, w2) ->
  deleteTaskController env req s =
    (match result with
     | inr _ =>
         Responded
           {| res_status := 200;
              res_json := [("message", JString "Task deleted successfully")] |}
     | inl e => Forwarded e
     end,
     {| world := w2;
        trace := trace s ++
          [EvGetMemberRoleInWorkspace (userid_of req) wid;
           EvDeleteTaskService wid tid] |}).
Proof.
  intros (Ht & Hw) Hrole Hperm Hdelete.
  unfold_run. rewrite Ht, Hw, Hrole, Hperm. reduce.
  rewrite Hdelete. destruct result; tidy_trace; reflexivity.
Qed.

(** X11: on a valid read-one request from a caller whose role holds
    [VIEW_ONLY], the answer follows the read service: 200 with the task
    it returned and "Task fetched successfully", or its error handed on
    (an unknown task, say); the service is asked for the task by
    workspace, project and task id. *)
Theorem getTaskById_outcome
    (req : Request) (s : State) (tid pid wid : string) (role : Role)
    (w1 : World) (result : Exn + Task) (w2 : World) :
  get_parses env req tid pid wid ->
  getMemberRoleInWorkspace_impl env (userid_of req) wid (world s)
    = (inr role, w1) ->
  has_permissions env role [VIEW_ONLY] = true ->
  getTaskByIdService_impl env wid pid tid w1 = (result, w2) ->
  getTaskByIdController env req s =
    (match result with
     | inr task =>
         Responded
           {| res_status := 200;
              res_json := [("message", JString "Task fetched successfully");
                           ("task", JTask task)] |}
     | inl e => Forwarded e
     end,
     {| world := w2;
        trace := trace s ++
          [EvGetMemberRoleInWorkspace (userid_of req) wid;
           EvGetTaskByIdService wid pid tid] |}).
Proof.
  intros (Ht & Hp & Hw) Hrole Hperm Hget.
  unfold_run. rewrite Ht, Hp, Hw, Hrole, Hperm. reduce.
  rewrite Hget. destruct result; tidy_trace; reflexivity.
Qed.

(** X13: in a listing response the fields of the service's result win:
    every key takes its value from the result (the last entry, should a
    key repeat), and the controller's message "All tasks fetched
    successfully" is there only when the result has no message field of
    its own. *)
Theorem listing_result_fields_win
    (req : Request) (s : State) (r : Response) (s' : State) :
  getAllTasksController env req s = (Responded r, s') ->
  exists wid filters w1 result,
    build_filters (query req) = inr filters /\
    getAllTasksService_impl env wid filters
      (build_pagination (query req)) w1 = (inr result, world s') /\
    res_status r = 200 /\
    forall k,
      obj_get k (res_json r)
        = match obj_get k (rev result) with
          | Some v => Some v
          | None =>
              if (k =? "message")%string
              then Some (JString "All tasks fetched successfully")
              else None
          end.
Proof.
  unfold_run. all_calls; intros Hrun; inversion Hrun; subst; clear Hrun.
  do 4 eexists. split; [reflexivity |]. split; [eassumption |].
  split; [reflexivity |].
  intros k. cbn [res_json]. rewrite obj_get_spread. cbn [obj_get].
  rewrite String.eqb_sym. reflexivity.
Qed.

(** X14: only the create controller notifies: on every request to the
    update, list, read-one and delete endpoints the run adds no send and
    no console output to the trace. *)
Theorem only_create_notifies (ep : Endpoint) (req : Request) (s : State) :
  ep <> CreateEndpoint ->
  exists new,
    trace (snd (controller env ep req s)) = trace s ++ new /\
    filter is_notification new = [].
Proof.
  intros Hep. destruct ep; [contradiction | | | |];
    cbn [controller]; unfold_run; all_calls;
    rewrite <- ?app_assoc; cbn [app];
    try (exists []; rewrite app_nil_r; split; reflexivity);
    eexists; split; reflexivity.
Qed.

(** X15: the read endpoints change no task: on every list or read-one
    request the run calls none of the create, update and delete
    services, and no e-mail provider. *)
Theorem reads_never_mutate (ep : Endpoint) (req : Request) (s : State) :
  ep = ListEndpoint \/ ep = GetEndpoint ->
  exists new,
    trace (snd (controller env ep req s)) = trace s ++ new /\
    existsb is_mutation new = false /\
    sends new = [].
Proof.
  intros [-> | ->]; cbn [controller]; unfold_run; all_calls;
    rewrite <- ?app_assoc; cbn [app];
    try (exists []; rewrite app_nil_r; repeat split; reflexivity);
    eexists; repeat split; reflexivity.
Qed.

(** X16: apart from the create controller, no controller answers a
    failure itself: every response it sends has status 200, and (the
    listing apart, whose result is merged in) carries the controller's
    fixed success message. *)
Theorem other_controllers_answer_only_success
    (ep : Endpoint) (req : Request) (s : State) (r : Response) (s' : State) :
  ep <> CreateEndpoint ->
  controller env ep req s = (Responded r, s') ->
  res_status r = 200 /\
  (ep <> ListEndpoint ->
   obj_get "message" (res_json r) = Some (JString (success_message ep))).
Proof.
  intros Hep. destruct ep; [contradiction | | | |];
    cbn [controller]; unfold_run; all_calls;
    intros Hrun; inversion Hrun; subst; clear Hrun;
    (split; [reflexivity | intros Hlist; try reflexivity; contradiction]).
Qed.

(** X18: the delete controller reads three things in a request: the
    caller's id, the task id and the workspace id.  It does not read the
    project id, the body or the query: two requests that agree on the
    three get the same answer and have the same effect. *)
Theorem delete_ignores_project (req1 req2 : Request) (s : State) :
  same_delete req1 req2 ->
  deleteTaskController env req1 s = deleteTaskController env req2 s.
Proof.
  unfold same_delete, userid_of, deleteTaskController, asyncHandler, deleteTask.
  intros (Hu & Hi & Hw). rewrite Hu, Hi, Hw. reflexivity.
Qed.

(** X19: when the update service rejects (an unknown task, say), the
    update controller sends no response: the service's error is handed
    to the error responder, after the role lookup and the one service
    call. *)
Theorem update_service_failure_forwarded
    (req : Request) (s : State) (body : UpdateTaskBody) (tid pid wid : string)
    (role : Role) (w1 : World) (e : Exn) (w2 : World) :
  update_parses env req body tid pid wid ->
  getMemberRoleInWorkspace_impl env (userid_of req) wid (world s)
    = (inr role, w1) ->
  has_permissions env role [EDIT_TASK] = true ->
  updateTaskService_impl env wid pid tid body w1 = (inl e, w2) ->
  updateTaskController env req s =
    (Forwarded e,
     {| world := w2;
        trace := trace s ++
          [EvGetMemberRoleInWorkspace (userid_of req) wid;
           EvUpdateTaskService wid pid tid body] |}).
Proof.
  intros (Hb & Ht & Hp & Hw) Hrole Hperm Hupdate.
  unfold_run. rewrite Hb, Ht, Hp, Hw, Hrole, Hperm. reduce.
  rewrite Hupdate. tidy_trace. reflexivity.
Qed.

End Coverage.

(** X17: a list in the filter object determines the query parameter it
    came from: the parameter was a string, and joining the elements of
    the list with commas gives it back; the list is never empty, and no
    element holds a comma. *)
Theorem list_filter_round_trip
    (q : list (string * Js.QueryValue)) (f : ListParam)
    (filters : Filters) (l : list string) :
  build_filters q = inr filters ->
  list_field f filters = Some l ->
  lookup (list_key f) q = Some (Js.QString (String.concat "," l)) /\
  l <> [] /\
  Forall (fun piece => has_char "," piece = false) l.
Proof.
  intros Hb Hl. pose proof (list_field_build f q filters Hb) as Hf.
  rewrite Hl in Hf. unfold split_if_truthy in Hf.
  destruct (lookup (list_key f) q) as [[str | items | fields] |];
    cbn in Hf; try discriminate.
  destruct (negb (str =? "")%string); [| discriminate].
  inversion Hf; subst; clear Hf.
  split; [| split].
  - do 2 f_equal. symmetry. apply (concat_split ","%char).
  - apply split_nonempty.
  - apply split_pieces_clean.
Qed.

(** [parseInt] on decimal numerals. *)
Lemma digit_cases (d : Z) :
  is_digit d ->
  d = 0 \/ d = 1 \/ d = 2 \/ d = 3 \/ d = 4 \/
  d = 5 \/ d = 6 \/ d = 7 \/ d = 8 \/ d = 9.
Proof. unfold is_digit. lia. Qed.

Lemma radix_digit_digit_char (d : Z) :
  is_digit d -> Js.radix_digit 10 (digit_char d) = Some d.
Proof. intros H. destruct (digit_cases d H) as
    [-> | [-> | [-> | [-> | [-> | [-> | [-> | [-> | [-> | ->]]]]]]]]]; reflexivity. Qed.

Lemma parse_digits_stop (rest : string) (acc : option Z) :
  stops_numeral rest -> Js.parse_digits 10 rest acc = acc.
Proof.
  destruct rest as [| c r]; cbn; [reflexivity |].
  intros ->. reflexivity.
Qed.

Lemma parse_digits_numeral (ds : list Z) (rest : string) (a : Z) :
  Forall is_digit ds ->
  stops_numeral rest ->
  Js.parse_digits 10 (numeral ds ++ rest) (Some a)
    = Some (fold_left (fun acc d => acc * 10 + d) ds a).
Proof.
  intros Hds Hrest. revert a.
  induction Hds as [| d ds Hd Hds IH]; intros a; cbn [numeral String.append].
  - apply parse_digits_stop. exact Hrest.
  - cbn [Js.parse_digits]. rewrite (radix_digit_digit_char d Hd).
    rewrite IH. reflexivity.
Qed.

Lemma strip_hex_prefix_zero (c : ascii) (r : string) :
  c <> "x"%char -> c <> "X"%char ->
  Js.strip_hex_prefix (String "0" (String c r)) = (10, String "0" (String c r)).
Proof.
  destruct c as [[] [] [] [] [] [] [] []]; intros Hx HX;
    try reflexivity; exfalso;
    first [apply Hx; reflexivity | apply HX; reflexivity].
Qed.

Lemma numeral_prefixes (d : Z) (tail : string) :
  is_digit d ->
  (d = 0 -> Js.strip_hex_prefix (String "0" tail) = (10, String "0" tail)) ->
  Js.trim_start (String (digit_char d) tail) = String (digit_char d) tail /\
  Js.strip_sign (String (digit_char d) tail) = (1, String (digit_char d) tail) /\
  Js.strip_hex_prefix (String (digit_char d) tail)
    = (10, String (digit_char d) tail).
Proof.
  intros Hd Hzero. destruct (digit_cases d Hd) as
    [-> | [-> | [-> | [-> | [-> | [-> | [-> | [-> | [-> | ->]]]]]]]]];
    (split; [reflexivity | split; [reflexivity |]]);
    first [apply Hzero; reflexivity | reflexivity].
Qed.

Lemma numeral_digits_read (ds : list Z) (rest : string) :
  ds <> [] ->
  Forall is_digit ds ->
  stops_numeral rest ->
  (ds = [0] -> no_hex_mark rest) ->
  Js.strip_hex_prefix (numeral ds ++ rest) = (10, (numeral ds ++ rest)%string) /\
  Js.parse_digits 10 (numeral ds ++ rest) None = Some (numeral_value ds).
Proof.
  intros Hne Hds Hrest Hhex.
  destruct ds as [| d ds']; [contradiction |].
  inversion Hds as [| ? ? Hd Hds']; subst.
  cbn [numeral String.append].
  destruct (numeral_prefixes d (numeral ds' ++ rest) Hd) as (_ & _ & Hpre).
  { intros ->. destruct ds' as [| d2 ds''].
    - cbn [numeral String.append].
      destruct rest as [| c r]; [reflexivity |].
      destruct (Hhex eq_refl) as [Hx HX].
      apply strip_hex_prefix_zero; assumption.
    - inversion Hds' as [| ? ? Hd2 _]; subst.
      cbn [numeral String.append].
      destruct (digit_cases d2 Hd2) as
        [-> | [-> | [-> | [-> | [-> | [-> | [-> | [-> | [-> | ->]]]]]]]]];
        reflexivity. }
  split; [exact Hpre |].
  cbn [Js.parse_digits]. rewrite (radix_digit_digit_char d Hd).
  rewrite (parse_digits_numeral ds' rest d Hds' Hrest). reflexivity.
Qed.

(** The Number value of an integer: exact below 2^53, never zero for an
    integer that is not. *)
Lemma F_exact (x : Z) : Z.abs x < 2 ^ 53 -> Js.F x = Js.Int x.
Proof.
  intros Hx. unfold Js.F.
  destruct (Z.ltb_spec (Z.abs x) (2 ^ 53)); [reflexivity | lia].
Qed.

Lemma F_truthy (x : Z) : x <> 0 -> Js.Number_truthy (Js.F x) = true.
Proof.
  intros Hx. unfold Js.F.
  destruct (Z.ltb_spec (Z.abs x) (2 ^ 53)) as [Hlt | Hge].
  - cbn. destruct (Z.eqb_spec x 0); [contradiction | reflexivity].
  - cbv zeta.
    set (a := Z.abs x) in *.
    set (e := Z.log2 a - 52).
    set (q := Z.shiftr a e).
    match goal with
    | |- context [if ?c then q + 1 else q] =>
        set (q' := if c then q + 1 else q)
    end.
    destruct (2 ^ 1024 <=? Z.shiftl q' e); [reflexivity |].
    cbn [Js.Number_truthy].
    assert (Ha : 0 < a) by (pose proof (Z.pow_pos_nonneg 2 53); lia).
    assert (Hlog : 53 <= Z.log2 a).
    { change 53 with (Z.log2 (2 ^ 53)). apply Z.log2_le_mono. exact Hge. }
    assert (He : 0 <= e) by (unfold e; lia).
    assert (Hpow : 0 < 2 ^ e) by (apply Z.pow_pos_nonneg; lia).
    assert (Hq : 1 <= q).
    { unfold q. rewrite Z.shiftr_div_pow2 by exact He.
      apply Z.div_le_lower_bound; [exact Hpow |].
      destruct (Z.log2_spec a Ha) as [Hlow _].
      assert (2 ^ e <= 2 ^ Z.log2 a)
        by (apply Z.pow_le_mono_r; unfold e; lia).
      lia. }
    assert (Hq' : 1 <= q') by (unfold q'; destruct (_ || _); lia).
    rewrite Z.shiftl_mul_pow2 by exact He.
    destruct (Z.eqb_spec (Z.sgn x * (q' * 2 ^ e)) 0) as [H0 | H0];
      [| reflexivity].
    exfalso. apply Z.mul_eq_0 in H0. destruct H0 as [H0 | H0].
    + apply Hx. apply Z.sgn_null_iff. exact H0.
    + nia.
Qed.

Lemma parseInt_numeral (ds : list Z) (rest : string) :
  ds <> [] ->
  Forall is_digit ds ->
  stops_numeral rest ->
  (ds = [0] -> no_hex_mark rest) ->
  Js.parseInt (numeral ds ++ rest) = Js.F (numeral_value ds).
Proof.
  intros Hne Hds Hrest Hhex.
  destruct (numeral_digits_read ds rest Hne Hds Hrest Hhex) as [Hpre Hread].
  destruct ds as [| d ds']; [contradiction |].
  inversion Hds as [| ? ? Hd Hds']; subst.
  cbn [numeral String.append] in *.
  destruct (numeral_prefixes d (numeral ds' ++ rest) Hd) as (Htrim & Hsign & _).
  { intros ->. exact Hpre. }
  unfold Js.parseInt. rewrite Htrim, Hsign, Hpre, Hread.
  rewrite Z.mul_1_l. reflexivity.
Qed.

Lemma parseInt_negative_numeral (ds : list Z) (rest : string) :
  ds <> [] ->
  Forall is_digit ds ->
  stops_numeral rest ->
  (ds = [0] -> no_hex_mark rest) ->
  Js.parseInt (String "-" (numeral ds ++ rest)) = Js.F (- numeral_value ds).
Proof.
  intros Hne Hds Hrest Hhex.
  destruct (numeral_digits_read ds rest Hne Hds Hrest Hhex) as [Hpre Hread].
  unfold Js.parseInt. cbn [Js.trim_start].
  change (Js.is_white_space "-") with false.
  cbv beta iota. cbn [Js.strip_sign]. cbv beta iota.
  rewrite Hpre, Hread. f_equal; lia.
Qed.

Lemma fold_digits_nonneg (ds : list Z) (a : Z) :
  Forall is_digit ds -> 0 <= a ->
  0 <= fold_left (fun acc d => acc * 10 + d) ds a.
Proof.
  intros Hds. revert a.
  induction Hds as [| d ds Hd Hds IH]; intros a Ha; cbn [fold_left];
    [exact Ha |].
  apply IH. unfold is_digit in Hd. lia.
Qed.

Lemma numeral_value_nonneg (ds : list Z) :
  Forall is_digit ds -> 0 <= numeral_value ds.
Proof. intros Hds. apply fold_digits_nonneg; [exact Hds | lia]. Qed.

(** X20: a page size or page number written as up to 20 decimal digits,
    alone or followed by anything that is not a digit, is read as the
    Number value of the integer the digits denote: that integer itself
    when it is below 2^53, the nearest double beyond.  The default takes
    its place only when the integer is 0.  (A lone 0 followed by x or X
    would start a hexadecimal numeral and is left out; past 20 digits
    the language leaves the rounding to the implementation.) *)
Theorem page_param_decimal
    (q : list (string * Js.QueryValue)) (f : PageParam)
    (ds : list Z) (rest : string) :
  lookup (page_key f) q = Some (Js.QString (numeral ds ++ rest)) ->
  (length ds <= 20)%nat ->
  ds <> [] ->
  Forall is_digit ds ->
  stops_numeral rest ->
  (ds = [0] -> no_hex_mark rest) ->
  page_field f (build_pagination q)
    = (if numeral_value ds =? 0 then Js.Int (page_default f)
       else Js.F (numeral_value ds)) /\
  (numeral_value ds < 2 ^ 53 ->
   Js.F (numeral_value ds) = Js.Int (numeral_value ds)).
Proof.
  intros Hq _ Hne Hds Hrest Hhex.
  pose proof (numeral_value_nonneg ds Hds) as Hpos.
  split.
  - rewrite page_field_build, Hq. cbn [Js.ToString Js.ToString_value].
    rewrite (parseInt_numeral ds rest Hne Hds Hrest Hhex).
    unfold Js.or.
    destruct (Z.eqb_spec (numeral_value ds) 0) as [H0 | H0].
    + rewrite H0. reflexivity.
    + rewrite (F_truthy _ H0). reflexivity.
  - intros Hlt. apply F_exact. lia.
Qed.

(** X21: the pagination has no lower bound: a page size or page number
    written as a minus sign and up to 20 decimal digits is taken as the
    Number value of that negative integer (the integer itself when it is
    above -2^53, the nearest double beyond) and handed on as such; only
    minus zero gives the default. *)
Theorem page_param_negative
    (q : list (string * Js.QueryValue)) (f : PageParam)
    (ds : list Z) (rest : string) :
  lookup (page_key f) q = Some (Js.QString (String "-" (numeral ds ++ rest))) ->
  (length ds <= 20)%nat ->
  ds <> [] ->
  Forall is_digit ds ->
  stops_numeral rest ->
  (ds = [0] -> no_hex_mark rest) ->
  page_field f (build_pagination q)
    = (if numeral_value ds =? 0 then Js.Int (page_default f)
       else Js.F (- numeral_value ds)) /\
  (numeral_value ds < 2 ^ 53 ->
   Js.F (- numeral_value ds) = Js.Int (- numeral_value ds)).
Proof.
  intros Hq _ Hne Hds Hrest Hhex.
  pose proof (numeral_value_nonneg ds Hds) as Hpos.
  split.
  - rewrite page_field_build, Hq. cbn [Js.ToString Js.ToString_value].
    rewrite (parseInt_negative_numeral ds rest Hne Hds Hrest Hhex).
    unfold Js.or.
    destruct (Z.eqb_spec (numeral_value ds) 0) as [H0 | H0].
    + rewrite H0. reflexivity.
    + rewrite (F_truthy (- numeral_value ds)) by lia. reflexivity.
  - intros Hlt. apply F_exact. lia.
Qed.

(** ** The further properties at work on the concrete deployment *)



Lemma create_service_failure_stops_run_witness :
  createTaskController Demo.env_create_down
    (Demo.request "alice" "Write report,u1") Demo.start =
    (Forwarded (OtherError "task store unavailable"),
     {| world := Demo.empty;
        trace :=
          [EvGetMemberRoleInWorkspace (Some "alice") "w1";
           EvCreateTaskService "w1" "p1" (Some "alice") (Demo.report_body "u1")] |}).
Proof.
  apply (create_service_failure_stops_run Demo.env_create_down
           (Demo.request "alice" "Write report,u1") Demo.start
           (Demo.report_body "u1") "p1" "w1" "OWNER" Demo.empty).
  - repeat split; reflexivity.
  - reflexivity.
  - reflexivity.
  - reflexivity.
Defined.

Lemma assignee_lookup_failure_keeps_task_witness :
  createTaskController Demo.env_users_down
    (Demo.request "alice" "Write report,u1") Demo.start =
    (Forwarded (OtherError "user store unavailable"),
     {| world := Demo.stored (Demo.report_task "u1");
        trace :=
          [EvGetMemberRoleInWorkspace (Some "alice") "w1";
           EvCreateTaskService "w1" "p1" (Some "alice") (Demo.report_body "u1");
           EvFindById (Some "u1")] |}).
Proof.
  apply (assignee_lookup_failure_keeps_task Demo.env_users_down
           (Demo.request "alice" "Write report,u1") Demo.start
           (Demo.report_body "u1") "p1" "w1" "OWNER" Demo.empty
           (Demo.report_task "u1") (Demo.stored (Demo.report_task "u1"))).
  - repeat split; reflexivity.
  - reflexivity.
  - reflexivity.
  - reflexivity.
  - reflexivity.
Defined.

Lemma delete_outcome_witness :
  deleteTaskController (Demo.env true) (Demo.request "alice" "") Demo.with_task =
    (Responded
       {| res_status := 200;
          res_json := [("message", JString "Task deleted successfully")] |},
     {| world := {| Demo.tasks := [];
                    Demo.outbox := Demo.outbox (world Demo.with_task) |};
        trace := trace Demo.with_task ++
          [EvGetMemberRoleInWorkspace (Some "alice") "w1";
           EvDeleteTaskService "w1" "t1"] |}).
Proof.
  apply (delete_outcome (Demo.env true) (Demo.request "alice" "")
           Demo.with_task "t1" "w1" "OWNER" (world Demo.with_task) (inr tt)).
  - repeat split; reflexivity.
  - reflexivity.
  - reflexivity.
  - reflexivity.
Defined.

Lemma getTaskById_outcome_witness :
  getTaskByIdController (Demo.env true) (Demo.request "carol" "") Demo.start =
    (Forwarded (NotFoundError "task"),
     {| world := Demo.empty;
        trace :=
          [EvGetMemberRoleInWorkspace (Some "carol") "w1";
           EvGetTaskByIdService "w1" "p1" "t1"] |}).
Proof.
  apply (getTaskById_outcome (Demo.env true) (Demo.request "carol" "")
           Demo.start "t1" "p1" "w1" "VIEWER" Demo.empty
           (inl (NotFoundError "task"))).
  - repeat split; reflexivity.
  - reflexivity.
  - reflexivity.
  - reflexivity.
Defined.


Lemma listing_result_fields_win_witness :
  exists wid filters w1 result,
    build_filters [] = inr filters /\
    getAllTasksService_impl Demo.env_list_message wid filters
      (build_pagination []) w1
      = (inr result, Demo.empty) /\
    200 = 200 /\
    forall k,
      obj_get k
        [("message", JString "from the service"); ("tasks", JTasks [])]
        = match obj_get k (rev result) with
          | Some v => Some v
          | None =>
              if (k =? "message")%string
              then Some (JString "All tasks fetched successfully")
              else None
          end.
Proof.
  apply (listing_result_fields_win Demo.env_list_message
           (Demo.request "carol" "") Demo.start
           {| res_status := 200;
              res_json := [("message", JString "from the service");
                           ("tasks", JTasks [])] |}
           (snd (getAllTasksController Demo.env_list_message
                   (Demo.request "carol" "") Demo.start))).
  reflexivity.
Defined.

Lemma only_create_notifies_witness :
  exists new,
    trace (snd (deleteTaskController (Demo.env true) (Demo.request "alice" "")
                  Demo.with_task))
      = trace Demo.with_task ++ new /\
    filter is_notification new = [].
Proof.
  apply (only_create_notifies (Demo.env true) DeleteEndpoint
           (Demo.request "alice" "") Demo.with_task).
  discriminate.
Defined.

Lemma reads_never_mutate_witness :
  exists new,
    trace (snd (getTaskByIdController (Demo.env true) (Demo.request "carol" "")
                  Demo.with_task))
      = trace Demo.with_task ++ new /\
    existsb is_mutation new = false /\
    sends new = [].
Proof.
  apply (reads_never_mutate (Demo.env true) GetEndpoint
           (Demo.request "carol" "") Demo.with_task).
  right. reflexivity.
Defined.

Lemma other_controllers_answer_only_success_witness :
  200 = 200 /\
  (GetEndpoint <> ListEndpoint ->
   obj_get "message"
     [("message", JString "Task fetched successfully");
      ("task", JTask (Demo.report_task "u1"))]
   = Some (JString "Task fetched successfully")).
Proof.
  apply (other_controllers_answer_only_success (Demo.env true) GetEndpoint
           (Demo.request "carol" "") Demo.with_task
           {| res_status := 200;
              res_json := [("message", JString "Task fetched successfully");
                           ("task", JTask (Demo.report_task "u1"))] |}
           (snd (getTaskByIdController (Demo.env true)
                   (Demo.request "carol" "") Demo.with_task))).
  - discriminate.
  - reflexivity.
Defined.

Lemma delete_ignores_project_witness :
  deleteTaskController (Demo.env true)
    (Demo.request_with "alice" [("workspaceId", "w1"); ("id", "t1")] [] "")
    Demo.with_task
  = deleteTaskController (Demo.env true)
      (Demo.request_with "alice"
         [("projectId", "another"); ("workspaceId", "w1"); ("id", "t1")]
         [("status", Js.QString "a")] "a body")
      Demo.with_task.
Proof.
  apply (delete_ignores_project (Demo.env true)).
  repeat split; reflexivity.
Defined.

Lemma update_service_failure_forwarded_witness :
  updateTaskController (Demo.env true) (Demo.request "bob" "New title")
    Demo.start =
    (Forwarded (NotFoundError "task"),
     {| world := Demo.empty;
        trace :=
          [EvGetMemberRoleInWorkspace (Some "bob") "w1";
           EvUpdateTaskService "w1" "p1" "t1" Demo.new_title] |}).
Proof.
  apply (update_service_failure_forwarded (Demo.env true)
           (Demo.request "bob" "New title") Demo.start
           Demo.new_title "t1" "p1" "w1" "MEMBER" Demo.empty).
  - repeat split; reflexivity.
  - reflexivity.
  - reflexivity.
  - reflexivity.
Defined.

Lemma list_filter_round_trip_witness :
  lookup "status" [("status", Js.QString "a,,b")]
    = Some (Js.QString (String.concat "," ["a"; ""; "b"]%string)) /\
  ["a"; ""; "b"]%string <> [] /\
  Forall (fun piece => has_char "," piece = false) ["a"; ""; "b"]%string.
Proof.
  apply (list_filter_round_trip [("status", Js.QString "a,,b")] StatusParam
           {| projectId := None; status := Some ["a"; ""; "b"]%string;
              priority := None; filter_assignedTo := None;
              keyword := None; dueDate := None |}).
  - reflexivity.
  - reflexivity.
Defined.

Lemma page_param_decimal_witness :
  pageSize (build_pagination [("pageSize", Js.QString "250 rows")])
    = Js.Int 250 /\
  (250 < 2 ^ 53 -> Js.F 250 = Js.Int 250).
Proof.
  apply (page_param_decimal [("pageSize", Js.QString "250 rows")] PageSize
           [2; 5; 0] " rows").
  - reflexivity.
  - cbn. lia.
  - discriminate.
  - repeat constructor; discriminate.
  - reflexivity.
  - discriminate.
Defined.

Lemma page_param_negative_witness :
  pageNumber (build_pagination [("pageNumber", Js.QString "-3")])
    = Js.Int (-3) /\
  (3 < 2 ^ 53 -> Js.F (-3) = Js.Int (-3)).
Proof.
  apply (page_param_negative [("pageNumber", Js.QString "-3")] PageNumber
           [3] "").
  - reflexivity.
  - cbn. lia.
  - discriminate.
  - repeat constructor; discriminate.
  - exact I.
  - discriminate.
Defined.
